(** * Stencil upload for the GLES backend (GPU/GLES/StencilBufferGLES.cpp)

    A shallow embedding of the three stencil bit scanners
    ([StencilBits5551], [StencilBits4444], [StencilBits8888]) and of
    [FramebufferManagerGLES::NotifyStencilUpload].

    Machine integers are [Z] with the truncations written out, the source
    memory is a list of bytes read as little-endian 32-bit words (the PSP
    and every host PPSSPP runs on are little-endian), and every effect of
    the function (GL calls, calls into collaborators, the cached program
    pointer, the words the scanners read) is threaded through an explicit
    [World]. *)

From Stdlib Require Import ZArith Bool Lia Ascii String List.
From Stdlib.Strings Require Import Byte.
Import ListNotations.
Local Open Scope Z_scope.

(** ** Machine integers *)

Definition to_u8 (x : Z) : Z := x mod 2 ^ 8.
Definition to_u16 (x : Z) : Z := x mod 2 ^ 16.
Definition to_u32 (x : Z) : Z := x mod 2 ^ 32.

(** ** Source memory

    [const u8 *ptr8] is the byte buffer starting at the pointer.  The cast
    [(const u32 * )ptr8] followed by [ptr[i]] is a little-endian load of the
    four bytes at offset [4 * i]. *)

Definition byte_val (b : byte) : Z := Z.of_N (Byte.to_N b).

Definition byte_at (ptr8 : list byte) (off : nat) : Z :=
  byte_val (nth off ptr8 x00).

Definition word_at (ptr8 : list byte) (i : nat) : Z :=
  Z.lor (byte_at ptr8 (4 * i))
    (Z.lor (Z.shiftl (byte_at ptr8 (4 * i + 1)) 8)
       (Z.lor (Z.shiftl (byte_at ptr8 (4 * i + 2)) 16)
          (Z.shiftl (byte_at ptr8 (4 * i + 3)) 24))).

(** The pixels of the region, as the formats lay them out: a 16-bit pixel
    is two bytes, a 32-bit pixel four, both little-endian. *)

Definition pixel16 (ptr8 : list byte) (k : nat) : Z :=
  Z.lor (byte_at ptr8 (2 * k)) (Z.shiftl (byte_at ptr8 (2 * k + 1)) 8).

Definition pixel32 (ptr8 : list byte) (k : nat) : Z := word_at ptr8 k.

(** Stencil field of one pixel in each format. *)
Definition stencil5551 (ptr8 : list byte) (k : nat) : bool :=
  Z.testbit (pixel16 ptr8 k) 15.
Definition alpha4444 (ptr8 : list byte) (k : nat) : Z :=
  Z.land (Z.shiftr (pixel16 ptr8 k) 12) 15.
Definition alpha8888 (ptr8 : list byte) (k : nat) : Z :=
  byte_at ptr8 (4 * k + 3).

(** ** Handles and enumerations *)

Inductive GEBufferFormat : Type :=
| GE_FORMAT_565
| GE_FORMAT_5551
| GE_FORMAT_4444
| GE_FORMAT_8888
| GE_FORMAT_INVALID.

Record GLSLProgram : Type := { program_id : Z }.
Record Framebuffer : Type := { fbo_id : Z }.

Inductive FBColorDepth : Type := FBO_8888.
Inductive GLenum : Type := GL_REPLACE | GL_ALWAYS.
Inductive Rotation : Type := ROTATION_LOCKED_HORIZONTAL.
Inductive FBChannel : Type := FB_STENCIL_BIT.
Inductive FBBlitFilter : Type := FB_BLIT_NEAREST.

Definition GL_STENCIL_BUFFER_BIT : Z := 0x400.
Definition GL_COLOR_BUFFER_BIT : Z := 0x4000.

(** Single-precision values are kept symbolic: the function only passes
    them on. *)
Inductive f32 : Type :=
| FLit (n : Z)                    (* the literals 0.0f and 1.0f *)
| FPlane (i : Z) (num : Z)        (* i * (num.0f / 255.0f) *)
| FOut (tag : Z).                 (* a value written back by a collaborator *)

Record VirtualFramebuffer : Type := {
  fb_address : Z;
  fb_stride : Z;
  width : Z;
  height : Z;
  renderWidth : Z;
  renderHeight : Z;
  bufferWidth : Z;
  bufferHeight : Z;
  format : GEBufferFormat;
  fbo : option Framebuffer
}.

(** ** Calls made by the function, in the order they are made *)

Inductive Call : Type :=
| ScissorTestDisable
| ColorMaskSet (r g b a : bool)
| ClearColor (r g b a : Z)
| ClearStencil (s : Z)
| Clear (mask : Z)
| GlslCreateSource (vs fs : string)
| ErrorLogReport (msg err : string)
| GlslBind (p : GLSLProgram)
| GlslUniformLoc (p : option GLSLProgram) (name : string)
| Uniform1i (loc v : Z)
| DirtyLastShader
| DisableState
| StencilTestEnable
| StencilOpSet (sfail zfail pass : GLenum)
| GetTempFBO (w h : Z) (depth : FBColorDepth)
| BindFramebufferAsRenderTarget (fb : Framebuffer)
| Viewport (x y w h : Z)
| MakePixelTexture (src : list byte) (fmt : GEBufferFormat)
    (stride w h : Z)
| ForgetLastTexture
| StencilFuncSet (func : GLenum) (ref mask : Z)
| StencilMaskSet (mask : Z)
| Uniform1f (loc : Z) (v : f32)
| DrawActiveTexture (x y w h destW destH : Z) (u0 v0 u1 v1 : f32)
    (rot : Rotation) (linear : bool)
| BlitFramebuffer (src : Framebuffer) (sx1 sy1 sx2 sy2 : Z)
    (dst : option Framebuffer) (dx1 dy1 dx2 dy2 : Z)
    (chan : FBChannel) (filt : FBBlitFilter)
| RebindFramebuffer.

(** ** The world the function runs in *)

Record World : Type := {
  stencilUploadProgram_ : option GLSLProgram;
  calls : list Call;          (* calls issued so far, oldest first *)
  loads : list nat            (* 32-bit words read by the scanners *)
}.

(** What the function reads from its surroundings during one call: the
    tracked framebuffers and the answers of its collaborators
    ([Memory::GetPointer], the GLSL helpers, [gstate_c.Supports], ...).
    Their code is outside this file; every theorem holds for all of them. *)
Record Host : Type := {
  MayIntersectFramebuffer : Z -> bool;
  MaskedEqual : Z -> Z -> bool;
  vfbs_ : list VirtualFramebuffer;
  GetPointer : Z -> option (list byte);
  IsGLES : bool;
  glsl_create_source : string -> string -> option GLSLProgram * string;
  glsl_uniform_loc : option GLSLProgram -> string -> Z;
  SupportsFramebufferBlit : bool;
  GetTempFBO_result : Z -> Z -> Framebuffer;
  MakePixelTexture_uv : f32 * f32
}.

(** ** A state monad with failure ([None] is only ever "out of fuel") *)

Definition M (A : Type) : Type := World -> option (A * World).

Definition ret {A} (a : A) : M A := fun w => Some (a, w).

Definition bind {A B} (m : M A) (k : A -> M B) : M B :=
  fun w => match m w with
           | Some (a, w') => k a w'
           | None => None
           end.

Definition out_of_fuel {A} : M A := fun _ => None.

Declare Scope upload_scope.
Delimit Scope upload_scope with upload.
Notation "x <- m ;; k" := (bind m (fun x => k))
  (at level 61, m at next level, right associativity) : upload_scope.
Notation "m ;;; k" := (bind m (fun _ => k))
  (at level 61, right associativity) : upload_scope.
Local Open Scope upload_scope.

Definition call (c : Call) : M unit :=
  fun w => Some (tt, {| stencilUploadProgram_ := stencilUploadProgram_ w;
                        calls := calls w ++ [c];
                        loads := loads w |}).

Definition load32 (ptr8 : list byte) (i : nat) : M Z :=
  fun w => Some (word_at ptr8 i,
                 {| stencilUploadProgram_ := stencilUploadProgram_ w;
                    calls := calls w;
                    loads := loads w ++ [i] |}).

Definition get_program : M (option GLSLProgram) :=
  fun w => Some (stencilUploadProgram_ w, w).

Definition set_program (p : option GLSLProgram) : M unit :=
  fun w => Some (tt, {| stencilUploadProgram_ := p;
                        calls := calls w;
                        loads := loads w |}).

(** ** The scanners

    [numPixels] is the [u32] argument, a value in [0 .. 2^32 - 1]; the
    loops run [Z.to_nat] of it. *)

(** [for (u32 i = 0; i < numPixels / 2; ++i) if (ptr[i] & 0x80008000) return 1;]
    with [k] iterations left, then [return 0]. *)
Fixpoint StencilBits5551_loop (ptr8 : list byte) (k i : nat) : M Z :=
  match k with
  | O => ret 0
  | S k' =>
      x <- load32 ptr8 i ;;
      if negb (Z.land x 0x80008000 =? 0) then ret 1
      else StencilBits5551_loop ptr8 k' (S i)
  end.

Definition StencilBits5551 (ptr8 : list byte) (numPixels : Z) : M Z :=
  r <- StencilBits5551_loop ptr8 (Z.to_nat (numPixels / 2)) 0 ;;
  ret (to_u8 r).

(** [for (u32 i = 0; i < numPixels / 2; ++i) bits |= ptr[i];] *)
Fixpoint StencilBits4444_loop (ptr8 : list byte) (k i : nat) (bits : Z)
  : M Z :=
  match k with
  | O => ret bits
  | S k' =>
      x <- load32 ptr8 i ;;
      StencilBits4444_loop ptr8 k' (S i) (Z.lor bits x)
  end.

Definition StencilBits4444 (ptr8 : list byte) (numPixels : Z) : M Z :=
  bits <- StencilBits4444_loop ptr8 (Z.to_nat (numPixels / 2)) 0 0 ;;
  ret (to_u8 (Z.lor (Z.land (Z.shiftr bits 12) 0xF) (Z.shiftr bits 28))).

(** [for (u32 i = 0; i < numPixels; ++i) bits |= ptr[i];] *)
Fixpoint StencilBits8888_loop (ptr8 : list byte) (k i : nat) (bits : Z)
  : M Z :=
  match k with
  | O => ret bits
  | S k' =>
      x <- load32 ptr8 i ;;
      StencilBits8888_loop ptr8 k' (S i) (Z.lor bits x)
  end.

Definition StencilBits8888 (ptr8 : list byte) (numPixels : Z) : M Z :=
  bits <- StencilBits8888_loop ptr8 (Z.to_nat numPixels) 0 0 ;;
  ret (to_u8 (Z.shiftr bits 24)).

(** ** Shader sources *)

Definition nl : string := String "010"%char EmptyString.

Definition gles_prefix : string :=
  ("#version 100" ++ nl ++
   "precision highp float;" ++ nl)%string.

Definition stencil_fs : string :=
  ("varying vec2 v_texcoord0;" ++ nl ++
   "uniform float u_stencilValue;" ++ nl ++
   "uniform sampler2D tex;" ++ nl ++
   "float roundAndScaleTo255f(in float x) { return floor(x * 255.99); }" ++ nl ++
   "void main() {" ++ nl ++
   "  vec4 index = texture2D(tex, v_texcoord0);" ++ nl ++
   "  gl_FragColor = vec4(index.a);" ++ nl ++
   "  float shifted = roundAndScaleTo255f(index.a) / roundAndScaleTo255f(u_stencilValue);" ++ nl ++
   "  if (mod(floor(shifted), 2.0) < 0.99) discard;" ++ nl ++
   "}" ++ nl)%string.

Definition stencil_vs : string :=
  ("attribute vec4 a_position;" ++ nl ++
   "attribute vec2 a_texcoord0;" ++ nl ++
   "varying vec2 v_texcoord0;" ++ nl ++
   "void main() {" ++ nl ++
   "  v_texcoord0 = a_texcoord0;" ++ nl ++
   "  gl_Position = a_position;" ++ nl ++
   "}" ++ nl)%string.

Definition GLSLES100PrefixProgram (h : Host) (code : string) : string :=
  if IsGLES h then (gles_prefix ++ code)%string else code.

Definition compile_error_msg : string :=
  ("Failed to compile stencilUploadProgram! This shouldn't happen." ++ nl ++
   "%s")%string.

(** ** NotifyStencilUpload *)

(** The search over [vfbs_]: no [break], so the last match wins. *)
Definition find_vfb (h : Host) (addr : Z) : option VirtualFramebuffer :=
  fold_left
    (fun dstBuffer vfb =>
       if MaskedEqual h (fb_address vfb) addr then Some vfb else dstBuffer)
    (vfbs_ h) None.

(** The [switch (dstBuffer->format)]: [None] is the [return false] of the
    565 case, otherwise the pair [(usedBits, values)]. *)
Definition scan_format (dstBuffer : VirtualFramebuffer) (src : list byte)
  : M (option (Z * Z)) :=
  let numPixels := to_u32 (fb_stride dstBuffer * bufferHeight dstBuffer) in
  match format dstBuffer with
  | GE_FORMAT_565 => ret None
  | GE_FORMAT_5551 =>
      usedBits <- StencilBits5551 src numPixels ;; ret (Some (usedBits, 2))
  | GE_FORMAT_4444 =>
      usedBits <- StencilBits4444 src numPixels ;; ret (Some (usedBits, 16))
  | GE_FORMAT_8888 =>
      usedBits <- StencilBits8888 src numPixels ;; ret (Some (usedBits, 256))
  | GE_FORMAT_INVALID => ret (Some (0, 0))
  end.

(** The [usedBits == 0], [!skipZero] branch. *)
Definition clear_only : M bool :=
  call ScissorTestDisable ;;;
  call (ColorMaskSet false false false true) ;;;
  call (ClearColor 0 0 0 0) ;;;
  call (ClearStencil 0) ;;;
  call (Clear (Z.lor GL_STENCIL_BUFFER_BIT GL_COLOR_BUFFER_BIT)) ;;;
  ret true.

(** The [if (!stencilUploadProgram_) ... else glsl_bind(...)] block. *)
Definition ensure_program (h : Host) : M unit :=
  p <- get_program ;;
  match p with
  | None =>
      let vs := GLSLES100PrefixProgram h stencil_vs in
      let fs := GLSLES100PrefixProgram h stencil_fs in
      call (GlslCreateSource vs fs) ;;;
      let created := glsl_create_source h vs fs in
      set_program (fst created) ;;;
      match fst created with
      | None => call (ErrorLogReport compile_error_msg (snd created))
      | Some prog => call (GlslBind prog)
      end ;;;
      call (GlslUniformLoc (fst created) "tex") ;;;
      call (Uniform1i (glsl_uniform_loc h (fst created) "tex") 0)
  | Some prog => call (GlslBind prog)
  end.

(** The body of one iteration that is not skipped. *)
Definition draw_plane (dstBuffer : VirtualFramebuffer)
    (u_stencilValue : Z) (u1 v1 : f32) (i : Z) : M unit :=
  match format dstBuffer with
  | GE_FORMAT_4444 =>
      call (StencilMaskSet (Z.lor (Z.shiftl i 4) i)) ;;;
      call (Uniform1f u_stencilValue (FPlane i 16))
  | GE_FORMAT_5551 =>
      call (StencilMaskSet 0xFF) ;;;
      call (Uniform1f u_stencilValue (FPlane i 128))
  | _ =>
      call (StencilMaskSet i) ;;;
      call (Uniform1f u_stencilValue (FPlane i 1))
  end ;;;
  call (DrawActiveTexture 0 0 (width dstBuffer) (height dstBuffer)
          (bufferWidth dstBuffer) (bufferHeight dstBuffer)
          (FLit 0) (FLit 0) u1 v1 ROTATION_LOCKED_HORIZONTAL false).

(** [for (int i = 1; i < values; i += i)], one unit of fuel per loop test. *)
Fixpoint draw_loop (fuel : nat) (dstBuffer : VirtualFramebuffer)
    (usedBits values u_stencilValue : Z) (u1 v1 : f32) (i : Z) : M unit :=
  match fuel with
  | O => out_of_fuel
  | S fuel' =>
      if i <? values then
        (if Z.land usedBits i =? 0 then ret tt
         else draw_plane dstBuffer u_stencilValue u1 v1 i) ;;;
        draw_loop fuel' dstBuffer usedBits values u_stencilValue u1 v1 (i + i)
      else ret tt
  end.

(** Everything from [shaderManagerGL_->DirtyLastShader()] to the end. *)
Definition reconstruct (fuel : nat) (h : Host)
    (dstBuffer : VirtualFramebuffer) (src : list byte)
    (usedBits values : Z) : M bool :=
  call DirtyLastShader ;;;
  call DisableState ;;;
  call (ColorMaskSet false false false true) ;;;
  call StencilTestEnable ;;;
  call (StencilOpSet GL_REPLACE GL_REPLACE GL_REPLACE) ;;;
  let useBlit :=
    if (bufferWidth dstBuffer =? renderWidth dstBuffer)
       || match fbo dstBuffer with None => true | Some _ => false end
    then false else SupportsFramebufferBlit h in
  let w := to_u16 (if useBlit then bufferWidth dstBuffer
                   else renderWidth dstBuffer) in
  let h' := to_u16 (if useBlit then bufferHeight dstBuffer
                    else renderHeight dstBuffer) in
  let blitFBO := GetTempFBO_result h w h' in
  (if useBlit then
     call (GetTempFBO w h' FBO_8888) ;;;
     call (BindFramebufferAsRenderTarget blitFBO)
   else match fbo dstBuffer with
        | Some f => call (BindFramebufferAsRenderTarget f)
        | None => ret tt
        end) ;;;
  call (Viewport 0 0 w h') ;;;
  call (MakePixelTexture src (format dstBuffer) (fb_stride dstBuffer)
          (bufferWidth dstBuffer) (bufferHeight dstBuffer)) ;;;
  let u1 := fst (MakePixelTexture_uv h) in
  let v1 := snd (MakePixelTexture_uv h) in
  call ForgetLastTexture ;;;
  call (ClearStencil 0) ;;;
  call (Clear GL_STENCIL_BUFFER_BIT) ;;;
  call (StencilFuncSet GL_ALWAYS 0xFF 0xFF) ;;;
  p <- get_program ;;
  call (GlslUniformLoc p "u_stencilValue") ;;;
  let u_stencilValue := glsl_uniform_loc h p "u_stencilValue" in
  draw_loop fuel dstBuffer usedBits values u_stencilValue u1 v1 1 ;;;
  call (StencilMaskSet 0xFF) ;;;
  (if useBlit then
     call (BlitFramebuffer blitFBO 0 0 w h' (fbo dstBuffer) 0 0
             (renderWidth dstBuffer) (renderHeight dstBuffer)
             FB_STENCIL_BIT FB_BLIT_NEAREST)
   else ret tt) ;;;
  call RebindFramebuffer ;;;
  ret true.

Definition NotifyStencilUpload (fuel : nat) (h : Host)
    (addr size : Z) (skipZero : bool) : M bool :=
  if negb (MayIntersectFramebuffer h addr) then ret false
  else
    match find_vfb h addr with
    | None => ret false
    | Some dstBuffer =>
        match GetPointer h addr with
        | None => ret false
        | Some src =>
            scanned <- scan_format dstBuffer src ;;
            match scanned with
            | None => ret false
            | Some (usedBits, values) =>
                if usedBits =? 0 then
                  if skipZero then ret false else clear_only
                else
                  ensure_program h ;;;
                  reconstruct fuel h dstBuffer src usedBits values
            end
        end
    end.

(** * Vocabulary of the statements

    Nothing below is part of the program: these are the worlds, call
    sequences and observations the theorems are stated with. *)

(** ** Worlds *)

(** [w] after the scanners read the words [l]. *)
Definition add_loads (w : World) (l : list nat) : World :=
  {| stencilUploadProgram_ := stencilUploadProgram_ w;
     calls := calls w;
     loads := loads w ++ l |}.

(** [w] after the calls [l] were issued. *)
Definition add_calls (w : World) (l : list Call) : World :=
  {| stencilUploadProgram_ := stencilUploadProgram_ w;
     calls := calls w ++ l;
     loads := loads w |}.

(** ** Regions of pixels *)

(** The union of a per-pixel field over pixels [0 .. n-1]. *)
Definition or_all (f : nat -> Z) (n : nat) : Z :=
  fold_right Z.lor 0 (map f (seq 0 n)).

(** The loop test [ptr[i] & 0x80008000]. *)
Definition hit5551 (p : list byte) (i : nat) : bool :=
  negb (Z.land (word_at p i) 0x80008000 =? 0).

(** [w] with the cached program replaced. *)
Definition set_prog (w : World) (p : option GLSLProgram) : World :=
  {| stencilUploadProgram_ := p; calls := calls w; loads := loads w |}.

(** ** Call sequences of the upload paths *)

(** The calls of the clear-only branch. *)
Definition clear_calls : list Call :=
  [ ScissorTestDisable;
    ColorMaskSet false false false true;
    ClearColor 0 0 0 0;
    ClearStencil 0;
    Clear (Z.lor GL_STENCIL_BUFFER_BIT GL_COLOR_BUFFER_BIT) ].

(** The values [i] for which the header
    [for (int i = 1; i < values; i += i)] enters the body, within [n]
    loop tests. *)
Fixpoint loop_values (n : nat) (values i : Z) : list Z :=
  match n with
  | O => []
  | S n' => if i <? values then i :: loop_values n' values (i + i) else []
  end.

(** The test [usedBits & i] of the loop body. *)
Definition plane_used (usedBits i : Z) : bool :=
  negb (Z.land usedBits i =? 0).

(** The argument of [glstate.stencilMask.set] for plane [i]. *)
Definition plane_mask (fmt : GEBufferFormat) (i : Z) : Z :=
  match fmt with
  | GE_FORMAT_4444 => Z.lor (Z.shiftl i 4) i
  | GE_FORMAT_5551 => 0xFF
  | _ => i
  end.

(** The value given to [u_stencilValue] for plane [i]. *)
Definition plane_weight (fmt : GEBufferFormat) (i : Z) : f32 :=
  match fmt with
  | GE_FORMAT_4444 => FPlane i 16
  | GE_FORMAT_5551 => FPlane i 128
  | _ => FPlane i 1
  end.

(** The calls of one loop iteration that draws. *)
Definition plane_calls (dstBuffer : VirtualFramebuffer)
    (u_stencilValue : Z) (u1 v1 : f32) (i : Z) : list Call :=
  [ StencilMaskSet (plane_mask (format dstBuffer) i);
    Uniform1f u_stencilValue (plane_weight (format dstBuffer) i);
    DrawActiveTexture 0 0 (width dstBuffer) (height dstBuffer)
      (bufferWidth dstBuffer) (bufferHeight dstBuffer)
      (FLit 0) (FLit 0) u1 v1 ROTATION_LOCKED_HORIZONTAL false ].

(** The calls of the block that compiles or binds the program, from the
    cached program [p]. *)
Definition ensure_calls (h : Host) (p : option GLSLProgram) : list Call :=
  match p with
  | None =>
      let vs := GLSLES100PrefixProgram h stencil_vs in
      let fs := GLSLES100PrefixProgram h stencil_fs in
      let created := glsl_create_source h vs fs in
      [ GlslCreateSource vs fs;
        match fst created with
        | None => ErrorLogReport compile_error_msg (snd created)
        | Some prog => GlslBind prog
        end;
        GlslUniformLoc (fst created) "tex";
        Uniform1i (glsl_uniform_loc h (fst created) "tex") 0 ]
  | Some prog => [ GlslBind prog ]
  end.

(** The cached program after that block. *)
Definition ensured_program (h : Host) (p : option GLSLProgram)
  : option GLSLProgram :=
  match p with
  | None =>
      fst (glsl_create_source h (GLSLES100PrefixProgram h stencil_vs)
             (GLSLES100PrefixProgram h stencil_fs))
  | Some prog => Some prog
  end.

(** The final value of [useBlit]. *)
Definition use_blit (h : Host) (dstBuffer : VirtualFramebuffer) : bool :=
  if (bufferWidth dstBuffer =? renderWidth dstBuffer)
     || match fbo dstBuffer with None => true | Some _ => false end
  then false else SupportsFramebufferBlit h.

(** The calls from [DirtyLastShader] up to the loop. *)
Definition setup_calls (h : Host) (dstBuffer : VirtualFramebuffer)
    (src : list byte) (p : option GLSLProgram) : list Call :=
  let useBlit := use_blit h dstBuffer in
  let w := to_u16 (if useBlit then bufferWidth dstBuffer
                   else renderWidth dstBuffer) in
  let h' := to_u16 (if useBlit then bufferHeight dstBuffer
                    else renderHeight dstBuffer) in
  [ DirtyLastShader; DisableState;
    ColorMaskSet false false false true;
    StencilTestEnable;
    StencilOpSet GL_REPLACE GL_REPLACE GL_REPLACE ] ++
  (if useBlit then
     [ GetTempFBO w h' FBO_8888;
       BindFramebufferAsRenderTarget (GetTempFBO_result h w h') ]
   else match fbo dstBuffer with
        | Some f => [ BindFramebufferAsRenderTarget f ]
        | None => []
        end) ++
  [ Viewport 0 0 w h';
    MakePixelTexture src (format dstBuffer) (fb_stride dstBuffer)
      (bufferWidth dstBuffer) (bufferHeight dstBuffer);
    ForgetLastTexture;
    ClearStencil 0;
    Clear GL_STENCIL_BUFFER_BIT;
    StencilFuncSet GL_ALWAYS 0xFF 0xFF;
    GlslUniformLoc p "u_stencilValue" ].

(** The calls after the loop. *)
Definition finish_calls (h : Host) (dstBuffer : VirtualFramebuffer)
  : list Call :=
  let useBlit := use_blit h dstBuffer in
  let w := to_u16 (if useBlit then bufferWidth dstBuffer
                   else renderWidth dstBuffer) in
  let h' := to_u16 (if useBlit then bufferHeight dstBuffer
                    else renderHeight dstBuffer) in
  [ StencilMaskSet 0xFF ] ++
  (if useBlit then
     [ BlitFramebuffer (GetTempFBO_result h w h') 0 0 w h' (fbo dstBuffer)
         0 0 (renderWidth dstBuffer) (renderHeight dstBuffer)
         FB_STENCIL_BIT FB_BLIT_NEAREST ]
   else []) ++
  [ RebindFramebuffer ].

(** The calls of the loop when it draws the planes [planes]. *)
Definition loop_calls (h : Host) (dstBuffer : VirtualFramebuffer)
    (p : option GLSLProgram) (planes : list Z) : list Call :=
  flat_map
    (plane_calls dstBuffer (glsl_uniform_loc h p "u_stencilValue")
       (fst (MakePixelTexture_uv h)) (snd (MakePixelTexture_uv h)))
    planes.

(** ** Observations on a call sequence *)

Definition is_draw (c : Call) : bool :=
  match c with DrawActiveTexture _ _ _ _ _ _ _ _ _ _ _ _ => true | _ => false end.

Definition count_draws (l : list Call) : nat := length (filter is_draw l).

(** For every [DrawActiveTexture] in [l], in order: the stencil write mask
    and the [u_stencilValue] weight last set before it. *)
Fixpoint draws_with (mask : option Z) (weight : option f32) (l : list Call)
  : list (option Z * option f32) :=
  match l with
  | [] => []
  | StencilMaskSet m :: l' => draws_with (Some m) weight l'
  | Uniform1f _ v :: l' => draws_with mask (Some v) l'
  | DrawActiveTexture _ _ _ _ _ _ _ _ _ _ _ _ :: l' =>
      (mask, weight) :: draws_with mask weight l'
  | _ :: l' => draws_with mask weight l'
  end.

(** The stencil write mask left behind by [l]. *)
Fixpoint final_mask (mask : option Z) (l : list Call) : option Z :=
  match l with
  | [] => mask
  | StencilMaskSet m :: l' => final_mask (Some m) l'
  | _ :: l' => final_mask mask l'
  end.

(** The number of bits set in [x] among positions [0 .. n-1]. *)
Definition set_bits (n : nat) (x : Z) : nat :=
  length (filter (fun b => Z.testbit x (Z.of_nat b)) (seq 0 n)).

(** Stencil bits per pixel. *)
Definition stencil_bits (fmt : GEBufferFormat) : nat :=
  match fmt with
  | GE_FORMAT_5551 => 1
  | GE_FORMAT_4444 => 4
  | GE_FORMAT_8888 => 8
  | _ => 0
  end.

(** Calls that neither draw nor set the stencil mask or a float uniform. *)
Definition inert (c : Call) : bool :=
  match c with
  | StencilMaskSet _ | Uniform1f _ _
  | DrawActiveTexture _ _ _ _ _ _ _ _ _ _ _ _ => false
  | _ => true
  end.

(** The calls of an upload that goes through the shader. *)
Definition shader_path_calls (h : Host) (dst : VirtualFramebuffer)
    (src : list byte) (p : option GLSLProgram) (planes : list Z)
  : list Call :=
  ensure_calls h p ++
  setup_calls h dst src (ensured_program h p) ++
  loop_calls h dst (ensured_program h p) planes ++
  finish_calls h dst.

(** ** Sample inputs *)

(** A 2x1 target rendered at 2x, at the start of VRAM. *)
Definition sample_vfb (fmt : GEBufferFormat) : VirtualFramebuffer :=
  {| fb_address := 0x04000000; fb_stride := 2;
     width := 2; height := 1;
     renderWidth := 4; renderHeight := 2;
     bufferWidth := 2; bufferHeight := 1;
     format := fmt; fbo := Some {| fbo_id := 7 |} |}.

(** A host tracking that one target, with [mem] behind its address and
    [compiled] as the outcome of compiling the shader. *)
Definition sample_host (fmt : GEBufferFormat) (mem : option (list byte))
    (compiled : option GLSLProgram) : Host :=
  {| MayIntersectFramebuffer := fun a =>
       (0x04000000 <=? Z.land a 0x3FFFFFFF) &&
       (Z.land a 0x3FFFFFFF <? 0x04200000);
     MaskedEqual := fun a b => Z.land a 0x03FFFFFF =? Z.land b 0x03FFFFFF;
     vfbs_ := [sample_vfb fmt];
     GetPointer := fun a => if a =? 0x04000000 then mem else None;
     IsGLES := true;
     glsl_create_source := fun _ _ =>
       (compiled,
        match compiled with
        | Some _ => EmptyString
        | None => "ERROR: 0:1: syntax error"%string
        end);
     glsl_uniform_loc := fun p name =>
       match p with
       | None => -1
       | Some _ => if String.eqb name "tex" then 0 else 1
       end;
     SupportsFramebufferBlit := true;
     GetTempFBO_result := fun _ _ => {| fbo_id := 9 |};
     MakePixelTexture_uv := (FOut 0, FOut 1) |}.

Definition world0 : World :=
  {| stencilUploadProgram_ := None; calls := []; loads := [] |}.

(** Two 8888 pixels, the first with alpha [0b00100000]. *)
Definition sample8888 : list byte :=
  [x11; x22; x33; x20; x44; x55; x66; x00].

(** Six 5551 pixels; only pixel 2 and the last two have the top bit set. *)
Definition sample5551 : list byte :=
  [xff; x7f; x00; x00; x00; x80; x00; x00; xff; xff; xff; xff].

(** Four 4444 pixels with alpha nibbles 0x3, 0xC, 0x3, 0xC. *)
Definition sample4444 : list byte :=
  [xab; x3c; x12; xc0; x00; x30; xff; xcf].

(** Eight zero bytes. *)
Definition zeros8 : list byte := [x00; x00; x00; x00; x00; x00; x00; x00].

Definition is_bind (c : Call) : bool :=
  match c with GlslBind _ => true | _ => false end.

(** The host of a context in which the shader does not compile. *)
Definition failing_host : Host :=
  sample_host GE_FORMAT_8888 (Some sample8888) None.

(** * Vocabulary of the further properties *)

(** ** The outcome of an upload *)

(** The scan of a target run on its own: what the [switch] yields and the
    words it reads. *)
Definition scan_pure (dstBuffer : VirtualFramebuffer) (src : list byte)
  : option (Z * Z) * list nat :=
  match scan_format dstBuffer src world0 with
  | Some (r, w0) => (r, loads w0)
  | None => (None, [])
  end.

(** What one upload returns and adds to the world. *)
Record Outcome : Type := {
  modified : bool;
  program_after : option GLSLProgram;
  issued : list Call;
  scanned : list nat
}.

(** The outcome of [NotifyStencilUpload] from a world whose cached program
    is [p], given enough fuel. *)
Definition upload_outcome (h : Host) (addr : Z) (skipZero : bool)
    (p : option GLSLProgram) : Outcome :=
  let noop reads :=
    {| modified := false; program_after := p; issued := [];
       scanned := reads |} in
  if negb (MayIntersectFramebuffer h addr) then noop []
  else
    match find_vfb h addr with
    | None => noop []
    | Some dstBuffer =>
        match GetPointer h addr with
        | None => noop []
        | Some src =>
            match scan_pure dstBuffer src with
            | (None, reads) => noop reads
            | (Some (usedBits, values), reads) =>
                if usedBits =? 0 then
                  if skipZero then noop reads
                  else {| modified := true; program_after := p;
                          issued := clear_calls; scanned := reads |}
                else
                  {| modified := true;
                     program_after := ensured_program h p;
                     issued :=
                       shader_path_calls h dstBuffer src p
                         (filter (plane_used usedBits)
                            (loop_values 9 values 1));
                     scanned := reads |}
            end
        end
    end.

(** The world after an outcome. *)
Definition after (w : World) (o : Outcome) : bool * World :=
  (modified o,
   {| stencilUploadProgram_ := program_after o;
      calls := calls w ++ issued o;
      loads := loads w ++ scanned o |}).

(** ** Kinds of calls *)


Definition is_create_source (c : Call) : bool :=
  match c with GlslCreateSource _ _ => true | _ => false end.

Definition is_error_report (c : Call) : bool :=
  match c with ErrorLogReport _ _ => true | _ => false end.

Definition is_get_temp (c : Call) : bool :=
  match c with GetTempFBO _ _ _ => true | _ => false end.

Definition is_blit (c : Call) : bool :=
  match c with
  | BlitFramebuffer _ _ _ _ _ _ _ _ _ _ _ _ => true
  | _ => false
  end.

Definition is_bind_target (c : Call) : bool :=
  match c with BindFramebufferAsRenderTarget _ => true | _ => false end.

Definition is_viewport (c : Call) : bool :=
  match c with Viewport _ _ _ _ => true | _ => false end.


Definition is_uniform1f (c : Call) : bool :=
  match c with Uniform1f _ _ => true | _ => false end.


Definition is_uniform1i (c : Call) : bool :=
  match c with Uniform1i _ _ => true | _ => false end.

Definition is_make_texture (c : Call) : bool :=
  match c with MakePixelTexture _ _ _ _ _ => true | _ => false end.

(** The calls issued before the first draw (all of them if none draws). *)
Fixpoint before_first_draw (l : list Call) : list Call :=
  match l with
  | [] => []
  | c :: l' => if is_draw c then [] else c :: before_first_draw l'
  end.

(** ** Further sample inputs *)

(** A tracked target of height 0. *)
Definition empty_vfb : VirtualFramebuffer :=
  {| fb_address := 0; fb_stride := 512;
     width := 480; height := 0;
     renderWidth := 480; renderHeight := 0;
     bufferWidth := 480; bufferHeight := 0;
     format := GE_FORMAT_8888; fbo := None |}.

(** A host tracking only that target, with memory everywhere. *)
Definition empty_host : Host :=
  {| MayIntersectFramebuffer := fun _ => true;
     MaskedEqual := Z.eqb;
     vfbs_ := [ empty_vfb ];
     GetPointer := fun _ => Some sample8888;
     IsGLES := false;
     glsl_create_source := fun _ _ => (None, EmptyString);
     glsl_uniform_loc := fun _ _ => 0;
     SupportsFramebufferBlit := false;
     GetTempFBO_result := fun _ _ => {| fbo_id := 0 |};
     MakePixelTexture_uv := (FLit 1, FLit 1) |}.

(** * Proofs *)

(** ** Running the monad *)

Lemma add_loads_nil w : add_loads w [] = w.
Proof. destruct w; unfold add_loads; simpl; now rewrite app_nil_r. Qed.

Lemma add_loads_app w l1 l2 :
  add_loads (add_loads w l1) l2 = add_loads w (l1 ++ l2).
Proof. unfold add_loads; simpl; now rewrite app_assoc. Qed.

Lemma add_calls_nil w : add_calls w [] = w.
Proof. destruct w; unfold add_calls; simpl; now rewrite app_nil_r. Qed.

Lemma add_calls_app w l1 l2 :
  add_calls (add_calls w l1) l2 = add_calls w (l1 ++ l2).
Proof. unfold add_calls; simpl; now rewrite app_assoc. Qed.

Lemma load32_run ptr8 i w :
  load32 ptr8 i w = Some (word_at ptr8 i, add_loads w [i]).
Proof. reflexivity. Qed.

Lemma call_run c w : call c w = Some (tt, add_calls w [c]).
Proof. reflexivity. Qed.

(** ** Bits of bytes, words and pixels *)

Lemma byte_val_range b : 0 <= byte_val b < 256.
Proof.
  unfold byte_val. pose proof (Byte.to_N_bounded b). lia.
Qed.

Lemma byte_at_range p o : 0 <= byte_at p o < 256.
Proof. apply byte_val_range. Qed.

Lemma small_bits_high x n j :
  0 <= x < 2 ^ n -> 0 <= n <= j -> Z.testbit x j = false.
Proof.
  intros Hx Hj. rewrite <- (Z.mod_small x (2 ^ n)) by lia.
  apply Z.mod_pow2_bits_high; lia.
Qed.

Lemma byte_at_bits_high p o j : 8 <= j -> Z.testbit (byte_at p o) j = false.
Proof.
  intros. apply (small_bits_high _ 8); [ | lia ].
  pose proof (byte_at_range p o). change (2 ^ 8) with 256. lia.
Qed.

Lemma word_at_testbit p i j :
  0 <= j ->
  Z.testbit (word_at p i) j =
    if j <? 8 then Z.testbit (byte_at p (4 * i)) j
    else if j <? 16 then Z.testbit (byte_at p (4 * i + 1)) (j - 8)
    else if j <? 24 then Z.testbit (byte_at p (4 * i + 2)) (j - 16)
    else Z.testbit (byte_at p (4 * i + 3)) (j - 24).
Proof.
  intros Hj. unfold word_at.
  rewrite !Z.lor_spec, !Z.shiftl_spec by lia.
  destruct (j <? 8) eqn:E8; [ apply Z.ltb_lt in E8 | apply Z.ltb_ge in E8 ].
  { rewrite !(Z.testbit_neg_r _ (j - _)) by lia. now rewrite !orb_false_r. }
  rewrite (byte_at_bits_high p (4 * i) j), orb_false_l by lia.
  destruct (j <? 16) eqn:E16; [ apply Z.ltb_lt in E16 | apply Z.ltb_ge in E16 ].
  { rewrite !(Z.testbit_neg_r _ (j - 16)), !(Z.testbit_neg_r _ (j - 24)) by lia.
    now rewrite !orb_false_r. }
  rewrite (byte_at_bits_high p (4 * i + 1) (j - 8)), orb_false_l by lia.
  destruct (j <? 24) eqn:E24; [ apply Z.ltb_lt in E24 | apply Z.ltb_ge in E24 ].
  { rewrite !(Z.testbit_neg_r _ (j - 24)) by lia. now rewrite !orb_false_r. }
  rewrite (byte_at_bits_high p (4 * i + 2) (j - 16)) by lia. reflexivity.
Qed.

Lemma word_at_bits_high p i j : 32 <= j -> Z.testbit (word_at p i) j = false.
Proof.
  intros Hj. rewrite word_at_testbit by lia.
  destruct (j <? 8) eqn:E8; [ apply Z.ltb_lt in E8; lia | ].
  destruct (j <? 16) eqn:E16; [ apply Z.ltb_lt in E16; lia | ].
  destruct (j <? 24) eqn:E24; [ apply Z.ltb_lt in E24; lia | ].
  apply byte_at_bits_high. lia.
Qed.

Lemma pixel16_testbit p k j :
  0 <= j ->
  Z.testbit (pixel16 p k) j =
    if j <? 8 then Z.testbit (byte_at p (2 * k)) j
    else Z.testbit (byte_at p (2 * k + 1)) (j - 8).
Proof.
  intros Hj. unfold pixel16.
  rewrite Z.lor_spec, Z.shiftl_spec by lia.
  destruct (j <? 8) eqn:E8; [ apply Z.ltb_lt in E8 | apply Z.ltb_ge in E8 ].
  - rewrite (Z.testbit_neg_r _ (j - 8)) by lia. apply orb_false_r.
  - rewrite byte_at_bits_high by lia. reflexivity.
Qed.

(** ** Bitwise OR over a region *)

Lemma fold_right_lor_bit l j :
  Z.testbit (fold_right Z.lor 0 l) j = true <->
  exists x, In x l /\ Z.testbit x j = true.
Proof.
  induction l as [|a l IH]; simpl.
  - rewrite Z.bits_0. split; [ discriminate | intros (x & [] & _) ].
  - rewrite Z.lor_spec, orb_true_iff, IH. split.
    + intros [H | (x & Hin & Hx)]; eauto.
    + intros (x & [<- | Hin] & Hx); eauto.
Qed.

Lemma fold_left_lor_bit l : forall b j,
  Z.testbit (fold_left Z.lor l b) j = true <->
  Z.testbit b j = true \/ exists x, In x l /\ Z.testbit x j = true.
Proof.
  induction l as [|a l IH]; simpl; intros b j.
  - split; [ auto | intros [H | (x & [] & _)]; exact H ].
  - rewrite IH, Z.lor_spec, orb_true_iff. split.
    + intros [[H | H] | (x & Hin & Hx)]; eauto.
    + intros [H | (x & [<- | Hin] & Hx)]; eauto.
Qed.

Lemma in_map_seq {A} (f : nat -> A) n x :
  In x (map f (seq 0 n)) <-> exists k, (k < n)%nat /\ x = f k.
Proof.
  rewrite in_map_iff. split.
  - intros (k & <- & Hk). apply in_seq in Hk. exists k. split; [ lia | easy ].
  - intros (k & Hk & ->). exists k. split; [ easy | apply in_seq; lia ].
Qed.

Lemma or_all_bit f n j :
  Z.testbit (or_all f n) j = true <->
  exists k, (k < n)%nat /\ Z.testbit (f k) j = true.
Proof.
  unfold or_all. rewrite fold_right_lor_bit. split.
  - intros (x & Hin & Hx). apply in_map_seq in Hin as (k & Hk & ->). eauto.
  - intros (k & Hk & Hx). exists (f k). split; [ | easy ].
    apply in_map_seq. eauto.
Qed.

Lemma words_or_bit p n j :
  Z.testbit (fold_left Z.lor (map (word_at p) (seq 0 n)) 0) j = true <->
  exists i, (i < n)%nat /\ Z.testbit (word_at p i) j = true.
Proof.
  rewrite fold_left_lor_bit, Z.bits_0. split.
  - intros [H | (x & Hin & Hx)]; [ discriminate | ].
    apply in_map_seq in Hin as (k & Hk & ->). eauto.
  - intros (k & Hk & Hx). right. exists (word_at p k). split; [ | easy ].
    apply in_map_seq. eauto.
Qed.

Lemma or_all_eq_0 f n :
  or_all f n = 0 <-> forall k, (k < n)%nat -> f k = 0.
Proof.
  unfold or_all. split.
  - intros H k Hk.
    assert (Hall : forall x, In x (map f (seq 0 n)) -> x = 0).
    { revert H. generalize (map f (seq 0 n)) as l.
      induction l as [|a l IH]; simpl; intros H x Hx; [ easy | ].
      apply Z.lor_eq_0_iff in H as [Ha Hl].
      destruct Hx as [<- | Hx]; auto. }
    apply Hall, in_map_seq. eauto.
  - intros H.
    assert (Hall : forall x, In x (map f (seq 0 n)) -> x = 0).
    { intros x Hx. apply in_map_seq in Hx as (k & Hk & ->). auto. }
    revert Hall. generalize (map f (seq 0 n)) as l.
    induction l as [|a l IH]; simpl; intros Hall; [ easy | ].
    apply Z.lor_eq_0_iff. split; [ apply Hall; auto | apply IH; auto ].
Qed.

Lemma or_all_single f n k v :
  (k < n)%nat -> f k = v ->
  (forall k', (k' < n)%nat -> k' <> k -> f k' = 0) ->
  or_all f n = v.
Proof.
  intros Hk Hv Hz. apply Z.bits_inj'. intros j Hj.
  apply eq_iff_eq_true. rewrite or_all_bit. split.
  - intros (k' & Hk' & Hb).
    destruct (Nat.eq_dec k' k) as [-> | Hne]; [ now rewrite <- Hv | ].
    rewrite (Hz k' Hk' Hne), Z.bits_0 in Hb. discriminate.
  - intros Hb. exists k. now rewrite Hv.
Qed.

(** ** The 8888 scanner *)

Lemma StencilBits8888_loop_run p k : forall i bits w,
  StencilBits8888_loop p k i bits w =
  Some (fold_left Z.lor (map (word_at p) (seq i k)) bits,
        add_loads w (seq i k)).
Proof.
  induction k as [|k IH]; intros i bits w; simpl.
  - unfold ret. now rewrite add_loads_nil.
  - unfold bind. rewrite load32_run, IH, add_loads_app. reflexivity.
Qed.

Lemma word_alpha8888_bit p i j :
  0 <= j ->
  Z.testbit (word_at p i) (j + 24) = Z.testbit (alpha8888 p i) j.
Proof.
  intros Hj. rewrite word_at_testbit by lia.
  destruct (j + 24 <? 8) eqn:E8; [ apply Z.ltb_lt in E8; lia | ].
  destruct (j + 24 <? 16) eqn:E16; [ apply Z.ltb_lt in E16; lia | ].
  destruct (j + 24 <? 24) eqn:E24; [ apply Z.ltb_lt in E24; lia | ].
  unfold alpha8888. f_equal. lia.
Qed.

Lemma top_byte_bit p n j :
  0 <= j ->
  Z.testbit
    (to_u8 (Z.shiftr (fold_left Z.lor (map (word_at p) (seq 0 n)) 0) 24)) j
    = true <->
  exists k, (k < n)%nat /\ Z.testbit (alpha8888 p k) j = true.
Proof.
  intros Hj. unfold to_u8.
  destruct (Z.lt_ge_cases j 8) as [Hlt | Hge].
  - rewrite Z.mod_pow2_bits_low, Z.shiftr_spec, words_or_bit by lia.
    split; intros (k & Hk & Hb); exists k; split; trivial.
    + now rewrite <- word_alpha8888_bit.
    + now rewrite word_alpha8888_bit.
  - rewrite Z.mod_pow2_bits_high by lia. split; [ discriminate | ].
    intros (k & _ & Hb). unfold alpha8888 in Hb.
    rewrite byte_at_bits_high in Hb by lia. discriminate.
Qed.

Lemma StencilBits8888_value p n :
  to_u8 (Z.shiftr (fold_left Z.lor (map (word_at p) (seq 0 n)) 0) 24)
  = or_all (alpha8888 p) n.
Proof.
  apply Z.bits_inj'. intros j Hj. apply eq_iff_eq_true.
  now rewrite top_byte_bit, or_all_bit.
Qed.

Lemma StencilBits8888_run p numPixels w :
  StencilBits8888 p numPixels w =
  Some (or_all (alpha8888 p) (Z.to_nat numPixels),
        add_loads w (seq 0 (Z.to_nat numPixels))).
Proof.
  unfold StencilBits8888, bind.
  rewrite StencilBits8888_loop_run. unfold ret.
  now rewrite StencilBits8888_value.
Qed.

(** ** The 4444 scanner *)

Lemma StencilBits4444_loop_run p k : forall i bits w,
  StencilBits4444_loop p k i bits w =
  Some (fold_left Z.lor (map (word_at p) (seq i k)) bits,
        add_loads w (seq i k)).
Proof.
  induction k as [|k IH]; intros i bits w; simpl.
  - unfold ret. now rewrite add_loads_nil.
  - unfold bind. rewrite load32_run, IH, add_loads_app. reflexivity.
Qed.

Lemma alpha4444_bit p k j :
  0 <= j ->
  Z.testbit (alpha4444 p k) j =
  (j <? 4) && Z.testbit (byte_at p (2 * k + 1)) (j + 4).
Proof.
  intros Hj. unfold alpha4444. change 15 with (Z.ones 4).
  rewrite Z.land_ones by lia.
  destruct (j <? 4) eqn:E; [ apply Z.ltb_lt in E | apply Z.ltb_ge in E ].
  - rewrite Z.mod_pow2_bits_low, Z.shiftr_spec, pixel16_testbit by lia.
    destruct (j + 12 <? 8) eqn:E8; [ apply Z.ltb_lt in E8; lia | ].
    simpl andb. f_equal. lia.
  - now rewrite Z.mod_pow2_bits_high by lia.
Qed.

Lemma word_low_nibble_bit p i j :
  0 <= j < 4 ->
  Z.testbit (word_at p i) (j + 12) = Z.testbit (alpha4444 p (2 * i)) j.
Proof.
  intros Hj. rewrite word_at_testbit, alpha4444_bit by lia.
  destruct (j + 12 <? 8) eqn:E8; [ apply Z.ltb_lt in E8; lia | ].
  destruct (j + 12 <? 16) eqn:E16; [ | apply Z.ltb_ge in E16; lia ].
  destruct (j <? 4) eqn:E4; [ | apply Z.ltb_ge in E4; lia ].
  rewrite andb_true_l. f_equal; [ f_equal | ]; lia.
Qed.

Lemma word_high_nibble_bit p i j :
  0 <= j < 4 ->
  Z.testbit (word_at p i) (j + 28) = Z.testbit (alpha4444 p (2 * i + 1)) j.
Proof.
  intros Hj. rewrite word_at_testbit, alpha4444_bit by lia.
  destruct (j + 28 <? 8) eqn:E8; [ apply Z.ltb_lt in E8; lia | ].
  destruct (j + 28 <? 16) eqn:E16; [ apply Z.ltb_lt in E16; lia | ].
  destruct (j + 28 <? 24) eqn:E24; [ apply Z.ltb_lt in E24; lia | ].
  destruct (j <? 4) eqn:E4; [ | apply Z.ltb_ge in E4; lia ].
  rewrite andb_true_l. f_equal; [ f_equal | ]; lia.
Qed.

(** Pixels [0 .. 2m-1] are the two halves of words [0 .. m-1]. *)
Lemma pixel_pairs (P : nat -> Prop) m :
  (exists i, (i < m)%nat /\ (P (2 * i)%nat \/ P (2 * i + 1)%nat)) <->
  (exists k, (k < 2 * m)%nat /\ P k).
Proof.
  split.
  - intros (i & Hi & [H | H]); eexists; (split; [ | exact H ]); lia.
  - intros (k & Hk & H). exists (Nat.div2 k).
    destruct (Nat.Even_Odd_dec k) as [E | O].
    + pose proof (Nat.Even_double k E) as D. unfold Nat.double in D.
      split; [ lia | left ].
      replace (2 * Nat.div2 k)%nat with k by lia. exact H.
    + pose proof (Nat.Odd_double k O) as D. unfold Nat.double in D.
      split; [ lia | right ].
      replace (2 * Nat.div2 k + 1)%nat with k by lia. exact H.
Qed.

Lemma merged_nibbles_bit p m j :
  0 <= j ->
  let bits := fold_left Z.lor (map (word_at p) (seq 0 m)) 0 in
  Z.testbit
    (to_u8 (Z.lor (Z.land (Z.shiftr bits 12) 0xF) (Z.shiftr bits 28))) j
    = true <->
  exists k, (k < 2 * m)%nat /\ Z.testbit (alpha4444 p k) j = true.
Proof.
  intros Hj bits. rewrite <- (pixel_pairs (fun k => Z.testbit (alpha4444 p k) j = true)).
  unfold to_u8. change 0xF with (Z.ones 4).
  destruct (Z.lt_ge_cases j 4) as [Hlt | Hge].
  - rewrite Z.mod_pow2_bits_low, Z.lor_spec, Z.land_ones by lia.
    rewrite Z.mod_pow2_bits_low, !Z.shiftr_spec, orb_true_iff by lia.
    unfold bits. rewrite !words_or_bit. split.
    + intros [(i & Hi & H) | (i & Hi & H)]; exists i; (split; [ easy | ]).
      * left. now rewrite <- word_low_nibble_bit by lia.
      * right. now rewrite <- word_high_nibble_bit by lia.
    + intros (i & Hi & [H | H]); [ left | right ]; exists i; (split; [ easy | ]).
      * now rewrite word_low_nibble_bit by lia.
      * now rewrite word_high_nibble_bit by lia.
  - split.
    + intros H. exfalso.
      destruct (Z.lt_ge_cases j 8) as [H8 | H8].
      * rewrite Z.mod_pow2_bits_low, Z.lor_spec, Z.land_ones in H by lia.
        rewrite Z.mod_pow2_bits_high, orb_false_l, Z.shiftr_spec in H by lia.
        unfold bits in H. apply words_or_bit in H as (i & _ & H).
        rewrite word_at_bits_high in H by lia. discriminate.
      * rewrite Z.mod_pow2_bits_high in H by lia. discriminate.
    + intros (i & _ & [H | H]); rewrite alpha4444_bit in H by lia;
        (destruct (j <? 4) eqn:E4; [ apply Z.ltb_lt in E4; lia | discriminate ]).
Qed.

Lemma StencilBits4444_value p m :
  let bits := fold_left Z.lor (map (word_at p) (seq 0 m)) 0 in
  to_u8 (Z.lor (Z.land (Z.shiftr bits 12) 0xF) (Z.shiftr bits 28))
  = or_all (alpha4444 p) (2 * m).
Proof.
  intros bits. apply Z.bits_inj'. intros j Hj. apply eq_iff_eq_true.
  unfold bits. now rewrite merged_nibbles_bit, or_all_bit.
Qed.

Lemma StencilBits4444_run p numPixels w :
  StencilBits4444 p numPixels w =
  Some (or_all (alpha4444 p) (2 * Z.to_nat (numPixels / 2)),
        add_loads w (seq 0 (Z.to_nat (numPixels / 2)))).
Proof.
  unfold StencilBits4444, bind.
  rewrite StencilBits4444_loop_run. unfold ret.
  now rewrite StencilBits4444_value.
Qed.

Lemma even_half numPixels :
  Z.even numPixels = true ->
  (2 * Z.to_nat (numPixels / 2))%nat = Z.to_nat numPixels.
Proof.
  intros E. apply Z.even_spec in E as [h ->].
  rewrite Z.mul_comm, Z.div_mul by lia. lia.
Qed.

(** ** The 5551 scanner *)

Lemma find_seq_first (f : nat -> bool) k : forall s j,
  find f (seq s k) = Some j ->
  (s <= j < s + k)%nat /\ f j = true /\
  forall i, (s <= i < j)%nat -> f i = false.
Proof.
  induction k as [|k IH]; simpl; intros s j H; [ discriminate | ].
  destruct (f s) eqn:E.
  - injection H as <-. repeat split; try lia. exact E.
  - apply IH in H as (Hr & Hj & Hfirst). repeat split; try lia; trivial.
    intros i Hi. destruct (Nat.eq_dec i s) as [-> | Hne]; [ exact E | ].
    apply Hfirst. lia.
Qed.

Lemma find_seq_none (f : nat -> bool) k s :
  find f (seq s k) = None ->
  forall i, (s <= i < s + k)%nat -> f i = false.
Proof.
  intros H i Hi. apply (find_none f _ H). apply in_seq. lia.
Qed.

Lemma StencilBits5551_loop_run p k : forall i w,
  StencilBits5551_loop p k i w =
  Some (match find (hit5551 p) (seq i k) with
        | Some j => (1, add_loads w (seq i (S j - i)))
        | None => (0, add_loads w (seq i k))
        end).
Proof.
  induction k as [|k IH]; intros i w; cbn [StencilBits5551_loop seq find].
  - unfold ret. now rewrite add_loads_nil.
  - unfold bind. rewrite load32_run. fold (hit5551 p i).
    destruct (hit5551 p i) eqn:E.
    + unfold ret. replace (S i - i)%nat with 1%nat by lia. reflexivity.
    + rewrite IH. destruct (find (hit5551 p) (seq (S i) k)) as [j|] eqn:F.
      * apply find_seq_first in F as (Hr & _ & _).
        rewrite add_loads_app.
        replace (S j - i)%nat with (S (S j - S i)) by lia. reflexivity.
      * now rewrite add_loads_app.
Qed.

Lemma mask5551_bit j :
  0 <= j -> Z.testbit 0x80008000 j = (j =? 15) || (j =? 31).
Proof.
  intros Hj. change 0x80008000 with (Z.lor (2 ^ 15) (2 ^ 31)).
  rewrite Z.lor_spec, !Z.pow2_bits_eqb by lia.
  now rewrite (Z.eqb_sym 15), (Z.eqb_sym 31).
Qed.

Lemma land_mask5551 x :
  negb (Z.land x 0x80008000 =? 0) = Z.testbit x 15 || Z.testbit x 31.
Proof.
  apply eq_iff_eq_true.
  rewrite negb_true_iff, Z.eqb_neq, orb_true_iff. split.
  - intros Hne.
    destruct (Z.testbit x 15) eqn:E15; [ now left | ].
    destruct (Z.testbit x 31) eqn:E31; [ now right | ].
    exfalso. apply Hne. apply Z.bits_inj'. intros j Hj.
    rewrite Z.land_spec, mask5551_bit, Z.bits_0 by lia.
    destruct (Z.eqb_spec j 15) as [-> | ?]; [ now rewrite E15 | ].
    destruct (Z.eqb_spec j 31) as [-> | ?]; [ now rewrite E31 | ].
    apply andb_false_r.
  - intros H E.
    assert (B15 : Z.testbit (Z.land x 0x80008000) 15 = false)
      by (rewrite E; apply Z.bits_0).
    assert (B31 : Z.testbit (Z.land x 0x80008000) 31 = false)
      by (rewrite E; apply Z.bits_0).
    rewrite Z.land_spec, mask5551_bit in B15, B31 by lia.
    change ((15 =? 15) || (15 =? 31)) with true in B15.
    change ((31 =? 15) || (31 =? 31)) with true in B31.
    rewrite andb_true_r in B15, B31.
    destruct H; congruence.
Qed.

Lemma hit5551_pixels p i :
  hit5551 p i = stencil5551 p (2 * i) || stencil5551 p (2 * i + 1).
Proof.
  unfold hit5551, stencil5551. rewrite land_mask5551.
  rewrite !word_at_testbit, !pixel16_testbit by lia.
  change (15 <? 8) with false. change (15 <? 16) with true.
  change (31 <? 8) with false. change (31 <? 16) with false.
  change (31 <? 24) with false. cbv iota.
  replace (2 * (2 * i) + 1)%nat with (4 * i + 1)%nat by lia.
  replace (2 * (2 * i + 1) + 1)%nat with (4 * i + 3)%nat by lia.
  reflexivity.
Qed.

Lemma StencilBits5551_run p numPixels w :
  StencilBits5551 p numPixels w =
  Some (match find (hit5551 p) (seq 0 (Z.to_nat (numPixels / 2))) with
        | Some j => (1, add_loads w (seq 0 (S j)))
        | None => (0, add_loads w (seq 0 (Z.to_nat (numPixels / 2))))
        end).
Proof.
  unfold StencilBits5551, bind. rewrite StencilBits5551_loop_run.
  destruct (find _ _) as [j|]; unfold ret; [ | reflexivity ].
  now rewrite Nat.sub_0_r.
Qed.

(** ** Running the upload *)

Ltac run_straight :=
  cbv [bind call ret set_program get_program
       calls loads stencilUploadProgram_];
  unfold add_calls, set_prog; cbn [calls loads stencilUploadProgram_];
  rewrite <- ?app_assoc; reflexivity.

Lemma bind_call {B} c (k : unit -> M B) w :
  bind (call c) k w = k tt (add_calls w [c]).
Proof. reflexivity. Qed.

Lemma bind_run {A B} (m : M A) (k : A -> M B) w a w1 :
  m w = Some (a, w1) -> bind m k w = k a w1.
Proof. unfold bind. now intros ->. Qed.

Lemma find_vfb_none h addr :
  (forall vfb, In vfb (vfbs_ h) -> MaskedEqual h (fb_address vfb) addr = false) ->
  find_vfb h addr = None.
Proof.
  unfold find_vfb. generalize (vfbs_ h) as l.
  induction l as [|v l IH]; intros Hall; simpl; [ reflexivity | ].
  rewrite (Hall v) by now left. apply IH. intros; apply Hall; now right.
Qed.

Lemma clear_only_run w : clear_only w = Some (true, add_calls w clear_calls).
Proof.
  unfold clear_only. rewrite !bind_call. unfold ret.
  now rewrite !add_calls_app.
Qed.

Lemma draw_plane_run dst u u1 v1 i w :
  draw_plane dst u u1 v1 i w =
  Some (tt, add_calls w (plane_calls dst u u1 v1 i)).
Proof.
  unfold draw_plane, plane_calls, plane_mask, plane_weight.
  destruct (format dst); run_straight.
Qed.

Lemma draw_loop_run dst usedBits values u u1 v1 : forall fuel i w,
  (length (loop_values fuel values i) < fuel)%nat ->
  draw_loop fuel dst usedBits values u u1 v1 i w =
  Some (tt, add_calls w
              (flat_map (plane_calls dst u u1 v1)
                 (filter (plane_used usedBits)
                    (loop_values fuel values i)))).
Proof.
  induction fuel as [|fuel IH]; intros i w Hlen; [ simpl in Hlen; lia | ].
  cbn [draw_loop loop_values] in *.
  destruct (i <? values) eqn:E.
  - cbn [length] in Hlen. cbn [filter]. unfold plane_used at 1.
    unfold bind at 1.
    destruct (Z.land usedBits i =? 0) eqn:U; cbn [negb].
    + unfold ret at 1. apply IH. lia.
    + rewrite draw_plane_run, IH by lia.
      cbn [flat_map]. now rewrite add_calls_app.
  - unfold ret. cbn [filter flat_map]. now rewrite add_calls_nil.
Qed.

Lemma ensure_program_run h w :
  ensure_program h w =
  Some (tt, add_calls (set_prog w (ensured_program h (stencilUploadProgram_ w)))
              (ensure_calls h (stencilUploadProgram_ w))).
Proof.
  unfold ensure_program, bind at 1, get_program.
  destruct w as [p cs ls]. cbn [stencilUploadProgram_].
  destruct p as [prog|]; [ reflexivity | ].
  cbn [ensured_program ensure_calls].
  destruct (fst (glsl_create_source h _ _)); run_straight.
Qed.

Lemma reconstruct_run fuel h dst src usedBits values w :
  (length (loop_values fuel values 1) < fuel)%nat ->
  reconstruct fuel h dst src usedBits values w =
  Some (true,
        add_calls w
          (setup_calls h dst src (stencilUploadProgram_ w) ++
           loop_calls h dst (stencilUploadProgram_ w)
             (filter (plane_used usedBits) (loop_values fuel values 1)) ++
           finish_calls h dst)).
Proof.
  intros Hlen. unfold reconstruct. cbv zeta. fold (use_blit h dst).
  unfold setup_calls, finish_calls, loop_calls. cbv zeta.
  destruct (use_blit h dst); [ | destruct (fbo dst) ]; cbv iota;
    cbv [bind call ret get_program calls loads stencilUploadProgram_];
    rewrite draw_loop_run by exact Hlen;
    unfold add_calls; cbn [calls loads stencilUploadProgram_];
    rewrite <- ?app_assoc; cbn [app]; reflexivity.
Qed.

(** ** Ranges of the scan results *)

Lemma bits_bound x n :
  0 <= n -> (forall j, n <= j -> Z.testbit x j = false) -> 0 <= x < 2 ^ n.
Proof.
  intros Hn Hhigh.
  assert (E : x = x mod 2 ^ n).
  { apply Z.bits_inj'. intros j Hj.
    destruct (Z.lt_ge_cases j n).
    - now rewrite Z.mod_pow2_bits_low.
    - rewrite Z.mod_pow2_bits_high by lia. now apply Hhigh. }
  rewrite E. apply Z.mod_pos_bound. lia.
Qed.

Lemma or_all_bound f n b :
  0 <= b -> (forall k j, b <= j -> Z.testbit (f k) j = false) ->
  0 <= or_all f n < 2 ^ b.
Proof.
  intros Hb Hf. apply bits_bound; [ exact Hb | ].
  intros j Hj. apply not_true_is_false. rewrite or_all_bit.
  intros (k & _ & H). now rewrite Hf in H.
Qed.

Lemma alpha8888_or_range p n : 0 <= or_all (alpha8888 p) n < 256.
Proof.
  apply (or_all_bound _ _ 8); [ lia | ].
  intros k j Hj. apply byte_at_bits_high. lia.
Qed.

Lemma alpha4444_or_range p n : 0 <= or_all (alpha4444 p) n < 16.
Proof.
  apply (or_all_bound _ _ 4); [ lia | ].
  intros k j Hj. rewrite alpha4444_bit by lia.
  destruct (j <? 4) eqn:E; [ apply Z.ltb_lt in E; lia | reflexivity ].
Qed.

(** What the [switch] yields, format by format. *)
Lemma scan_format_cases dst src w r w1 :
  scan_format dst src w = Some (r, w1) ->
  (exists reads, w1 = add_loads w reads) /\
  match format dst with
  | GE_FORMAT_565 => r = None /\ w1 = w
  | GE_FORMAT_5551 => exists u, r = Some (u, 2) /\ (u = 0 \/ u = 1)
  | GE_FORMAT_4444 => exists u, r = Some (u, 16) /\ 0 <= u < 16
  | GE_FORMAT_8888 => exists u, r = Some (u, 256) /\ 0 <= u < 256
  | GE_FORMAT_INVALID => r = Some (0, 0) /\ w1 = w
  end.
Proof.
  unfold scan_format. destruct (format dst).
  - unfold ret. intros [= <- <-]. split; [ exists []; now rewrite add_loads_nil | easy ].
  - unfold bind. rewrite StencilBits5551_run.
    destruct (find _ _); unfold ret; intros [= <- <-];
      (split; [ eexists; reflexivity | eexists; split; [ reflexivity | auto ] ]).
  - unfold bind. rewrite StencilBits4444_run. unfold ret. intros [= <- <-].
    split; [ eexists; reflexivity | ].
    eexists; split; [ reflexivity | apply alpha4444_or_range ].
  - unfold bind. rewrite StencilBits8888_run. unfold ret. intros [= <- <-].
    split; [ eexists; reflexivity | ].
    eexists; split; [ reflexivity | apply alpha8888_or_range ].
  - unfold ret. intros [= <- <-]. split; [ exists []; now rewrite add_loads_nil | easy ].
Qed.

Lemma scan_format_total dst src w :
  exists r w1, scan_format dst src w = Some (r, w1).
Proof.
  unfold scan_format. destruct (format dst); unfold bind;
    rewrite ?StencilBits5551_run, ?StencilBits4444_run, ?StencilBits8888_run;
    try destruct (find _ _); unfold ret; eauto.
Qed.

(** ** The loop header *)

Lemma loop_values_2 fuel : loop_values (9 + fuel) 2 1 = [1].
Proof. reflexivity. Qed.

Lemma loop_values_16 fuel : loop_values (9 + fuel) 16 1 = [1; 2; 4; 8].
Proof. reflexivity. Qed.

Lemma loop_values_256 fuel :
  loop_values (9 + fuel) 256 1 = [1; 2; 4; 8; 16; 32; 64; 128].
Proof. reflexivity. Qed.

Lemma loop_values_0 fuel : loop_values (9 + fuel) 0 1 = [].
Proof. reflexivity. Qed.

Lemma plane_used_pow2 u b :
  0 <= b -> plane_used u (2 ^ b) = Z.testbit u b.
Proof.
  intros Hb. unfold plane_used. apply eq_iff_eq_true.
  rewrite negb_true_iff, Z.eqb_neq. split.
  - intros Hne. destruct (Z.testbit u b) eqn:E; [ reflexivity | ].
    exfalso. apply Hne. apply Z.bits_inj'. intros j Hj.
    rewrite Z.land_spec, Z.pow2_bits_eqb, Z.bits_0 by lia.
    destruct (Z.eqb_spec b j) as [<- | ?]; [ now rewrite E | apply andb_false_r ].
  - intros Ht E.
    assert (B : Z.testbit (Z.land u (2 ^ b)) b = false)
      by (rewrite E; apply Z.bits_0).
    rewrite Z.land_spec, Z.pow2_bits_true, Ht in B by lia. discriminate.
Qed.

Lemma used_planes_count u (l : list nat) :
  length (filter (plane_used u) (map (fun b => 2 ^ Z.of_nat b) l)) =
  length (filter (fun b => Z.testbit u (Z.of_nat b)) l).
Proof.
  induction l as [|b l IH]; [ reflexivity | ].
  cbn [map filter]. rewrite plane_used_pow2 by lia.
  destruct (Z.testbit u (Z.of_nat b)); cbn [length]; now rewrite IH.
Qed.

Lemma filter_length_le {A} (f : A -> bool) l :
  (length (filter f l) <= length l)%nat.
Proof.
  induction l as [|a l IH]; simpl; [ lia | ].
  destruct (f a); simpl; lia.
Qed.

(** ** Draws, masks and weights along a call sequence *)

Lemma draws_with_inert l1 : forall m wt l2,
  forallb inert l1 = true ->
  draws_with m wt (l1 ++ l2) = draws_with m wt l2.
Proof.
  induction l1 as [|c l1 IH]; intros m wt l2 H; [ reflexivity | ].
  cbn [forallb] in H. apply andb_true_iff in H as [Hc Hl].
  destruct c; try discriminate Hc; cbn [app draws_with]; now apply IH.
Qed.

Lemma draws_with_loop dst u u1 v1 rest planes : forall m wt,
  (forall m' wt', draws_with m' wt' rest = []) ->
  draws_with m wt (flat_map (plane_calls dst u u1 v1) planes ++ rest) =
  map (fun i => (Some (plane_mask (format dst) i),
                 Some (plane_weight (format dst) i))) planes.
Proof.
  induction planes as [|i planes IH]; intros m wt Hrest.
  - apply Hrest.
  - cbn [flat_map plane_calls app draws_with map]. f_equal. now apply IH.
Qed.

Lemma count_draws_with l : forall m wt,
  count_draws l = length (draws_with m wt l).
Proof.
  unfold count_draws.
  induction l as [|c l IH]; intros m wt; [ reflexivity | ].
  destruct c; cbn [filter is_draw draws_with length]; auto.
Qed.

Lemma final_mask_app l1 : forall m l2,
  final_mask m (l1 ++ l2) = final_mask (final_mask m l1) l2.
Proof.
  induction l1 as [|c l1 IH]; intros m l2; [ reflexivity | ].
  destruct c; cbn [app final_mask]; apply IH.
Qed.

Lemma ensure_calls_inert h p : forallb inert (ensure_calls h p) = true.
Proof.
  unfold ensure_calls. destruct p; [ reflexivity | ].
  cbv zeta. destruct (fst (glsl_create_source h _ _)); reflexivity.
Qed.

Lemma setup_calls_inert h dst src p :
  forallb inert (setup_calls h dst src p) = true.
Proof.
  unfold setup_calls. cbv zeta.
  destruct (use_blit h dst); [ reflexivity | ].
  destruct (fbo dst); reflexivity.
Qed.

Lemma finish_calls_no_draw h dst m wt :
  draws_with m wt (finish_calls h dst) = [].
Proof. unfold finish_calls. cbv zeta. destruct (use_blit h dst); reflexivity. Qed.

Lemma finish_calls_mask h dst m :
  final_mask m (finish_calls h dst) = Some 0xFF.
Proof. unfold finish_calls. cbv zeta. destruct (use_blit h dst); reflexivity. Qed.

Lemma shader_path_draws h dst src p planes m wt :
  draws_with m wt (shader_path_calls h dst src p planes) =
  map (fun i => (Some (plane_mask (format dst) i),
                 Some (plane_weight (format dst) i))) planes.
Proof.
  unfold shader_path_calls, loop_calls.
  rewrite draws_with_inert by apply ensure_calls_inert.
  rewrite draws_with_inert by apply setup_calls_inert.
  apply draws_with_loop. intros. apply finish_calls_no_draw.
Qed.

Lemma shader_path_final_mask h dst src p planes m :
  final_mask m (shader_path_calls h dst src p planes) = Some 0xFF.
Proof.
  unfold shader_path_calls.
  rewrite !final_mask_app. apply finish_calls_mask.
Qed.

Lemma upload_shader_path fuel h addr size skipZero w dst src
    usedBits values w1 :
  MayIntersectFramebuffer h addr = true ->
  find_vfb h addr = Some dst ->
  GetPointer h addr = Some src ->
  scan_format dst src w = Some (Some (usedBits, values), w1) ->
  usedBits <> 0 ->
  (length (loop_values fuel values 1) < fuel)%nat ->
  NotifyStencilUpload fuel h addr size skipZero w =
  Some (true,
        add_calls
          (set_prog w1 (ensured_program h (stencilUploadProgram_ w1)))
          (shader_path_calls h dst src (stencilUploadProgram_ w1)
             (filter (plane_used usedBits) (loop_values fuel values 1)))).
Proof.
  intros Hmay Hfind Hptr Hscan Hne Hfuel.
  unfold NotifyStencilUpload. rewrite Hmay, Hfind, Hptr. cbn [negb].
  rewrite (bind_run _ _ _ _ _ Hscan).
  apply Z.eqb_neq in Hne. rewrite Hne.
  unfold bind at 1. rewrite ensure_program_run.
  rewrite reconstruct_run by exact Hfuel.
  cbn [stencilUploadProgram_ add_calls set_prog].
  unfold shader_path_calls, add_calls, set_prog.
  cbn [calls loads stencilUploadProgram_].
  rewrite <- ?app_assoc. reflexivity.
Qed.

Lemma upload_zero_path fuel h addr size skipZero w dst src values w1 :
  MayIntersectFramebuffer h addr = true ->
  find_vfb h addr = Some dst ->
  GetPointer h addr = Some src ->
  scan_format dst src w = Some (Some (0, values), w1) ->
  NotifyStencilUpload fuel h addr size skipZero w =
  Some (if skipZero then (false, w1) else (true, add_calls w1 clear_calls)).
Proof.
  intros Hmay Hfind Hptr Hscan.
  unfold NotifyStencilUpload. rewrite Hmay, Hfind, Hptr. cbn [negb].
  rewrite (bind_run _ _ _ _ _ Hscan). cbn [Z.eqb].
  destruct skipZero; [ reflexivity | apply clear_only_run ].
Qed.

Lemma alpha8888_top_byte p k : alpha8888 p k = Z.shiftr (pixel32 p k) 24.
Proof.
  apply Z.bits_inj'. intros j Hj. unfold pixel32.
  now rewrite Z.shiftr_spec, word_alpha8888_bit by lia.
Qed.

(** * The scanners *)

Example StencilBits8888_sample :
  StencilBits8888 sample8888 2 world0 =
  Some (0x20, add_loads world0 [0; 1]%nat).
Proof. reflexivity. Qed.

Example StencilBits4444_sample :
  StencilBits4444 sample4444 4 world0 =
  Some (0xF, add_loads world0 [0; 1]%nat).
Proof. reflexivity. Qed.

Example StencilBits5551_sample :
  StencilBits5551 sample5551 6 world0 =
  Some (1, add_loads world0 [0; 1]%nat).
Proof. reflexivity. Qed.

(** With an odd count the last pixel is in no word the loop reads: the
    only set pixel among the first three of the sample is pixel 2. *)
Example StencilBits5551_odd_count :
  stencil5551 sample5551 2 = true /\
  StencilBits5551 sample5551 3 world0 =
  Some (0, add_loads world0 [0]%nat).
Proof. split; reflexivity. Qed.

(** C2.  For the 8888 format the scanner reads every 32-bit pixel of the
    region once and returns the bitwise OR of their alpha (top) bytes: bit
    [i] of the result is set exactly when some pixel has alpha bit [i]
    set; one pixel with alpha [0b00100000] among pixels with alpha 0 gives
    [0x20]; the result is 0 exactly when every alpha byte is 0.  This holds
    for every pixel count, even ones included. *)
Theorem StencilBits8888_alpha_union (ptr8 : list byte) (numPixels : Z)
    (w : World) :
  (4 * Z.to_nat numPixels <= length ptr8)%nat ->
  let n := Z.to_nat numPixels in
  exists usedBits,
    StencilBits8888 ptr8 numPixels w =
      Some (usedBits, add_loads w (seq 0 n)) /\
    usedBits = or_all (alpha8888 ptr8) n /\
    (forall k, alpha8888 ptr8 k = Z.shiftr (pixel32 ptr8 k) 24) /\
    (forall i, 0 <= i ->
       Z.testbit usedBits i = true <->
       exists k, (k < n)%nat /\ Z.testbit (alpha8888 ptr8 k) i = true) /\
    (forall k, (k < n)%nat -> alpha8888 ptr8 k = 0x20 ->
       (forall k', (k' < n)%nat -> k' <> k -> alpha8888 ptr8 k' = 0) ->
       usedBits = 0x20) /\
    (usedBits = 0 <-> forall k, (k < n)%nat -> alpha8888 ptr8 k = 0).
Proof.
  intros _ n. exists (or_all (alpha8888 ptr8) n).
  split; [ apply StencilBits8888_run | ].
  split; [ reflexivity | ].
  split; [ intros; apply alpha8888_top_byte | ].
  split; [ intros i _; apply or_all_bit | ].
  split; [ intros k Hk Hv Hz; now apply (or_all_single _ _ k) | ].
  apply or_all_eq_0.
Qed.

Lemma StencilBits8888_alpha_union_witness :
  (4 * Z.to_nat 2 <= length sample8888)%nat /\
  exists usedBits,
    StencilBits8888 sample8888 2 world0 =
      Some (usedBits, add_loads world0 [0; 1]%nat) /\
    usedBits = 0x20.
Proof.
  assert (H : (4 * Z.to_nat 2 <= length sample8888)%nat) by (simpl; lia).
  split; [ exact H | ].
  destruct (StencilBits8888_alpha_union sample8888 2 world0 H)
    as (u & Hrun & _ & _ & _ & Hone & _).
  exists u. split; [ exact Hrun | ].
  apply (Hone 0%nat); [ simpl; lia | reflexivity | ].
  intros k' Hk' Hne. assert (k' = 1%nat) as -> by (simpl in Hk'; lia).
  reflexivity.
Defined.

(** C3.  For the 5551 format and an even pixel count the scanner returns 1
    when some 16-bit pixel of the region has bit 15 set and 0 when none
    has; when it returns 1 it has read the 32-bit words up to and including
    the first one holding such a pixel and no word after it, and when it
    returns 0 it has read every word of the region. *)
Theorem StencilBits5551_any_set_early_exit (ptr8 : list byte)
    (numPixels : Z) (w : World) :
  Z.even numPixels = true ->
  (2 * Z.to_nat numPixels <= length ptr8)%nat ->
  let n := Z.to_nat numPixels in
  let words := Z.to_nat (numPixels / 2) in
  ((exists k, (k < n)%nat /\ stencil5551 ptr8 k = true) ->
   exists i, (i < words)%nat /\
     stencil5551 ptr8 (2 * i) || stencil5551 ptr8 (2 * i + 1) = true /\
     (forall i', (i' < i)%nat ->
        stencil5551 ptr8 (2 * i') = false /\
        stencil5551 ptr8 (2 * i' + 1) = false) /\
     StencilBits5551 ptr8 numPixels w =
       Some (1, add_loads w (seq 0 (S i)))) /\
  ((forall k, (k < n)%nat -> stencil5551 ptr8 k = false) ->
   StencilBits5551 ptr8 numPixels w =
     Some (0, add_loads w (seq 0 words))).
Proof.
  intros Heven _ n words.
  assert (Hn : (2 * words)%nat = n) by (apply even_half; exact Heven).
  rewrite StencilBits5551_run. fold words.
  destruct (find (hit5551 ptr8) (seq 0 words)) as [j|] eqn:F.
  - apply find_seq_first in F as (Hj & Hhit & Hfirst).
    split.
    + intros _. exists j. split; [ lia | ].
      split; [ now rewrite <- hit5551_pixels | ].
      split; [ | reflexivity ].
      intros i' Hi'. apply orb_false_iff.
      rewrite <- hit5551_pixels. apply Hfirst. lia.
    + intros Hnone. rewrite hit5551_pixels in Hhit.
      apply orb_true_iff in Hhit as [H | H];
        rewrite Hnone in H by lia; discriminate.
  - pose proof (find_seq_none _ _ _ F) as Hnone.
    split; [ | reflexivity ].
    intros Hex. exfalso. rewrite <- Hn in Hex.
    apply (pixel_pairs (fun k => stencil5551 ptr8 k = true)) in Hex
      as (i & Hi & Hor).
    apply orb_true_iff in Hor. rewrite <- hit5551_pixels in Hor.
    rewrite Hnone in Hor by lia. discriminate.
Qed.

Lemma StencilBits5551_any_set_early_exit_witness :
  Z.even 6 = true /\
  (2 * Z.to_nat 6 <= length sample5551)%nat /\
  StencilBits5551 sample5551 6 world0 =
    Some (1, add_loads world0 [0; 1]%nat).
Proof.
  split; [ reflexivity | ]. split; [ simpl; lia | ].
  destruct (StencilBits5551_any_set_early_exit sample5551 6 world0)
    as [Hset _]; [ reflexivity | simpl; lia | ].
  destruct Hset as (i & Hi & Hhit & Hfirst & Hrun).
  { exists 2%nat. split; [ simpl; lia | reflexivity ]. }
  assert (i = 1%nat) as ->; [ | exact Hrun ].
  destruct i as [|[|i]]; [ discriminate Hhit | reflexivity | ].
  destruct (Hfirst 1%nat) as [H _]; [ lia | discriminate H ].
Defined.

(** C4.  For the 4444 format and an even pixel count the scanner returns
    the bitwise OR of the top (alpha) nibble of every 16-bit pixel of the
    region, whatever the positions of the pixels: it reads every 32-bit
    word, and bit [i] of the 4-bit result is bit [12 + i] or bit [28 + i]
    of the OR of all words.  A region whose pixels have alpha nibbles 0x3
    and 0xC, both present, gives 0xF. *)
Theorem StencilBits4444_nibble_union (ptr8 : list byte) (numPixels : Z)
    (w : World) :
  Z.even numPixels = true ->
  (2 * Z.to_nat numPixels <= length ptr8)%nat ->
  let n := Z.to_nat numPixels in
  let words := Z.to_nat (numPixels / 2) in
  exists usedBits,
    StencilBits4444 ptr8 numPixels w =
      Some (usedBits, add_loads w (seq 0 words)) /\
    usedBits = or_all (alpha4444 ptr8) n /\
    0 <= usedBits < 16 /\
    (forall i, 0 <= i < 4 ->
       Z.testbit usedBits i =
       Z.testbit (or_all (word_at ptr8) words) (12 + i)
       || Z.testbit (or_all (word_at ptr8) words) (28 + i)) /\
    (forall i, 0 <= i ->
       Z.testbit usedBits i = true <->
       exists k, (k < n)%nat /\ Z.testbit (alpha4444 ptr8 k) i = true) /\
    ((exists k, (k < n)%nat /\ alpha4444 ptr8 k = 0x3) ->
     (exists k, (k < n)%nat /\ alpha4444 ptr8 k = 0xC) ->
     (forall k, (k < n)%nat ->
        alpha4444 ptr8 k = 0x3 \/ alpha4444 ptr8 k = 0xC) ->
     usedBits = 0xF).
Proof.
  intros Heven _ n words.
  assert (Hn : (2 * words)%nat = n) by (apply even_half; exact Heven).
  exists (or_all (alpha4444 ptr8) n).
  split; [ rewrite StencilBits4444_run; fold words; now rewrite Hn | ].
  split; [ reflexivity | ].
  split; [ apply alpha4444_or_range | ].
  split.
  { intros i Hi. apply eq_iff_eq_true.
    rewrite orb_true_iff, !or_all_bit, <- Hn.
    rewrite <- (pixel_pairs (fun k => Z.testbit (alpha4444 ptr8 k) i = true)).
    split.
    - intros (j & Hj & [H | H]); [ left | right ]; exists j; (split; [ easy | ]).
      + now rewrite Z.add_comm, word_low_nibble_bit.
      + now rewrite Z.add_comm, word_high_nibble_bit.
    - intros [(j & Hj & H) | (j & Hj & H)]; exists j; (split; [ easy | ]).
      + left. now rewrite <- word_low_nibble_bit, Z.add_comm.
      + right. now rewrite <- word_high_nibble_bit, Z.add_comm. }
  split; [ intros i _; apply or_all_bit | ].
  intros (k3 & Hk3 & H3) (kc & Hkc & Hc) Hall.
  apply Z.bits_inj'. intros j Hj. apply eq_iff_eq_true.
  rewrite or_all_bit. split.
  - intros (k & Hk & Hb).
    destruct (Hall k Hk) as [E | E]; rewrite E in Hb.
    + change 0xF with (Z.lor 0x3 0xC). now rewrite Z.lor_spec, Hb.
    + change 0xF with (Z.lor 0x3 0xC). now rewrite Z.lor_spec, Hb, orb_true_r.
  - change 0xF with (Z.lor 0x3 0xC). rewrite Z.lor_spec, orb_true_iff.
    intros [H | H]; [ exists k3 | exists kc ]; (split; [ easy | ]).
    + now rewrite H3.
    + now rewrite Hc.
Qed.

Lemma StencilBits4444_nibble_union_witness :
  Z.even 4 = true /\
  (2 * Z.to_nat 4 <= length sample4444)%nat /\
  exists usedBits,
    StencilBits4444 sample4444 4 world0 =
      Some (usedBits, add_loads world0 [0; 1]%nat) /\
    usedBits = 0xF.
Proof.
  split; [ reflexivity | ]. split; [ simpl; lia | ].
  destruct (StencilBits4444_nibble_union sample4444 4 world0)
    as (u & Hrun & _ & _ & _ & _ & Hmix); [ reflexivity | simpl; lia | ].
  exists u. split; [ exact Hrun | ].
  apply Hmix.
  - exists 0%nat. split; [ simpl; lia | reflexivity ].
  - exists 1%nat. split; [ simpl; lia | reflexivity ].
  - intros k Hk.
    assert (k = 0 \/ k = 1 \/ k = 2 \/ k = 3)%nat as [-> | [-> | [-> | ->]]]
      by (simpl in Hk; lia); vm_compute; auto.
Defined.

(** * The upload *)

(** One unit of fuel per loop test: an 8888 upload needs nine. *)
Example upload_fuel_8888 :
  NotifyStencilUpload 8 failing_host 0x04000000 8 false world0 = None /\
  exists w, NotifyStencilUpload 9 failing_host 0x04000000 8 false world0
            = Some (true, w).
Proof. split; [ reflexivity | eexists; vm_compute; reflexivity ]. Qed.

(** C7.  When the address is outside the framebuffer range, matches no
    tracked render target, or has no resolvable memory pointer, the upload
    returns false and leaves the world exactly as it was: no call is
    issued, nothing is read, the cached program is untouched. *)
Theorem upload_unresolved_is_noop (fuel : nat) (h : Host) (addr size : Z)
    (skipZero : bool) (w : World) :
  MayIntersectFramebuffer h addr = false \/
  (forall vfb, In vfb (vfbs_ h) ->
     MaskedEqual h (fb_address vfb) addr = false) \/
  GetPointer h addr = None ->
  NotifyStencilUpload fuel h addr size skipZero w = Some (false, w).
Proof.
  intros H. unfold NotifyStencilUpload.
  destruct (MayIntersectFramebuffer h addr) eqn:Hmay; [ | reflexivity ].
  cbn [negb]. destruct H as [H | [H | H]]; [ discriminate | | ].
  - now rewrite (find_vfb_none _ _ H).
  - destruct (find_vfb h addr); [ | reflexivity ]. now rewrite H.
Qed.

Lemma upload_unresolved_is_noop_witness :
  (MayIntersectFramebuffer (sample_host GE_FORMAT_8888 None None)
     0x04000000 = false \/
   (forall vfb, In vfb (vfbs_ (sample_host GE_FORMAT_8888 None None)) ->
      MaskedEqual (sample_host GE_FORMAT_8888 None None)
        (fb_address vfb) 0x04000000 = false) \/
   GetPointer (sample_host GE_FORMAT_8888 None None) 0x04000000 = None) /\
  NotifyStencilUpload 9 (sample_host GE_FORMAT_8888 None None)
    0x04000000 8 false world0 = Some (false, world0).
Proof.
  assert (H : GetPointer (sample_host GE_FORMAT_8888 None None) 0x04000000
              = None) by reflexivity.
  split; [ right; right; exact H | ].
  apply upload_unresolved_is_noop. right; right; exact H.
Defined.

(** C5.  When the address resolves to a tracked render target whose
    format is 565, the upload returns false whatever the memory holds: the
    world is unchanged, so no word was scanned and no call was issued. *)
Theorem upload_565_is_noop (fuel : nat) (h : Host) (addr size : Z)
    (skipZero : bool) (w : World) (dstBuffer : VirtualFramebuffer) :
  find_vfb h addr = Some dstBuffer ->
  format dstBuffer = GE_FORMAT_565 ->
  NotifyStencilUpload fuel h addr size skipZero w = Some (false, w).
Proof.
  intros Hfind Hfmt. unfold NotifyStencilUpload.
  destruct (MayIntersectFramebuffer h addr); [ | reflexivity ].
  cbn [negb]. rewrite Hfind.
  destruct (GetPointer h addr) as [src|]; [ | reflexivity ].
  unfold bind, scan_format. now rewrite Hfmt.
Qed.

Lemma upload_565_is_noop_witness :
  find_vfb (sample_host GE_FORMAT_565 (Some sample8888) None) 0x04000000
    = Some (sample_vfb GE_FORMAT_565) /\
  format (sample_vfb GE_FORMAT_565) = GE_FORMAT_565 /\
  NotifyStencilUpload 9 (sample_host GE_FORMAT_565 (Some sample8888) None)
    0x04000000 8 false world0 = Some (false, world0).
Proof.
  split; [ reflexivity | ]. split; [ reflexivity | ].
  apply (upload_565_is_noop 9 _ _ 8 false world0 (sample_vfb GE_FORMAT_565));
    reflexivity.
Defined.

(** C1.  When the resolved target has a stencil-bearing format and the
    scan of its memory yields [usedBits = 0]: with [skipZero] the upload
    returns false, having issued no call and left the cached program as it
    was (only the scan's reads happened); without it the upload returns
    true after exactly these calls: scissor test off, colour mask
    alpha-only, clear colour (0,0,0,0), clear stencil 0, and one clear of
    the stencil and colour buffers.  The shader is neither compiled nor
    bound. *)
Theorem upload_all_zero_source (fuel : nat) (h : Host) (addr size : Z)
    (w : World) (dstBuffer : VirtualFramebuffer) (src : list byte)
    (values : Z) (w1 : World) :
  MayIntersectFramebuffer h addr = true ->
  find_vfb h addr = Some dstBuffer ->
  GetPointer h addr = Some src ->
  format dstBuffer = GE_FORMAT_5551 \/ format dstBuffer = GE_FORMAT_4444 \/
    format dstBuffer = GE_FORMAT_8888 ->
  scan_format dstBuffer src w = Some (Some (0, values), w1) ->
  calls w1 = calls w /\
  stencilUploadProgram_ w1 = stencilUploadProgram_ w /\
  NotifyStencilUpload fuel h addr size true w = Some (false, w1) /\
  NotifyStencilUpload fuel h addr size false w =
    Some (true,
          {| stencilUploadProgram_ := stencilUploadProgram_ w;
             calls := calls w ++
               [ ScissorTestDisable;
                 ColorMaskSet false false false true;
                 ClearColor 0 0 0 0;
                 ClearStencil 0;
                 Clear (Z.lor GL_STENCIL_BUFFER_BIT GL_COLOR_BUFFER_BIT) ];
             loads := loads w1 |}).
Proof.
  intros Hmay Hfind Hptr _ Hscan.
  destruct (scan_format_cases _ _ _ _ _ Hscan) as [(reads & ->) _].
  split; [ reflexivity | ]. split; [ reflexivity | ].
  split.
  - now rewrite (upload_zero_path _ _ _ _ _ _ _ _ _ _ Hmay Hfind Hptr Hscan).
  - now rewrite (upload_zero_path _ _ _ _ _ _ _ _ _ _ Hmay Hfind Hptr Hscan).
Qed.

Lemma upload_all_zero_source_witness :
  NotifyStencilUpload 0 (sample_host GE_FORMAT_8888 (Some zeros8) None)
    0x04000000 8 true world0 = Some (false, add_loads world0 [0; 1]%nat) /\
  NotifyStencilUpload 0 (sample_host GE_FORMAT_8888 (Some zeros8) None)
    0x04000000 8 false world0 =
    Some (true,
          {| stencilUploadProgram_ := None;
             calls := [ ScissorTestDisable;
                        ColorMaskSet false false false true;
                        ClearColor 0 0 0 0;
                        ClearStencil 0;
                        Clear 0x4400 ];
             loads := [0; 1]%nat |}).
Proof.
  destruct (upload_all_zero_source 0
              (sample_host GE_FORMAT_8888 (Some zeros8) None) 0x04000000 8
              world0 (sample_vfb GE_FORMAT_8888) zeros8 256
              (add_loads world0 [0; 1]%nat))
    as (_ & _ & Hskip & Hclear);
    [ reflexivity | reflexivity | reflexivity | right; right; reflexivity
    | reflexivity | ].
  split; [ exact Hskip | exact Hclear ].
Defined.

(** C10.  When the resolved target has format Invalid, the [switch] scans
    nothing and leaves [usedBits = 0] and [values = 0], and the upload
    goes down the all-zero path: with [skipZero] it returns false and the
    world is unchanged; without it, it issues the clear of stencil and
    alpha and returns true. *)
Theorem upload_invalid_format_acts_as_zero (fuel : nat) (h : Host)
    (addr size : Z) (w : World) (dstBuffer : VirtualFramebuffer)
    (src : list byte) :
  MayIntersectFramebuffer h addr = true ->
  find_vfb h addr = Some dstBuffer ->
  GetPointer h addr = Some src ->
  format dstBuffer = GE_FORMAT_INVALID ->
  scan_format dstBuffer src w = Some (Some (0, 0), w) /\
  NotifyStencilUpload fuel h addr size true w = Some (false, w) /\
  NotifyStencilUpload fuel h addr size false w =
    Some (true,
          {| stencilUploadProgram_ := stencilUploadProgram_ w;
             calls := calls w ++
               [ ScissorTestDisable;
                 ColorMaskSet false false false true;
                 ClearColor 0 0 0 0;
                 ClearStencil 0;
                 Clear (Z.lor GL_STENCIL_BUFFER_BIT GL_COLOR_BUFFER_BIT) ];
             loads := loads w |}).
Proof.
  intros Hmay Hfind Hptr Hfmt.
  assert (Hscan : scan_format dstBuffer src w = Some (Some (0, 0), w))
    by (unfold scan_format; now rewrite Hfmt).
  split; [ exact Hscan | ].
  split.
  - now rewrite (upload_zero_path _ _ _ _ _ _ _ _ _ _ Hmay Hfind Hptr Hscan).
  - now rewrite (upload_zero_path _ _ _ _ _ _ _ _ _ _ Hmay Hfind Hptr Hscan).
Qed.

Lemma upload_invalid_format_acts_as_zero_witness :
  NotifyStencilUpload 0
    (sample_host GE_FORMAT_INVALID (Some sample8888) None)
    0x04000000 8 true world0 = Some (false, world0) /\
  exists w', NotifyStencilUpload 0
    (sample_host GE_FORMAT_INVALID (Some sample8888) None)
    0x04000000 8 false world0 = Some (true, w') /\ loads w' = [].
Proof.
  destruct (upload_invalid_format_acts_as_zero 0
              (sample_host GE_FORMAT_INVALID (Some sample8888) None)
              0x04000000 8 world0 (sample_vfb GE_FORMAT_INVALID) sample8888)
    as (_ & Hskip & Hclear); try reflexivity.
  split; [ exact Hskip | ].
  eexists. split; [ exact Hclear | reflexivity ].
Defined.

(** ** Uploads that reach the draw loop *)

Lemma set_bits_pos n u :
  0 <= u < 2 ^ Z.of_nat n -> u <> 0 -> (1 <= set_bits n u)%nat.
Proof.
  intros Hu Hne. unfold set_bits.
  assert (Hb : Z.testbit u (Z.log2 u) = true) by (apply Z.bit_log2; lia).
  assert (Hlt : Z.log2 u < Z.of_nat n) by (apply Z.log2_lt_pow2; lia).
  pose proof (Z.log2_nonneg u) as Hnn.
  assert (Hin : In (Z.to_nat (Z.log2 u))
                  (filter (fun b => Z.testbit u (Z.of_nat b)) (seq 0 n))).
  { apply filter_In. split; [ apply in_seq; lia | ].
    now rewrite Z2Nat.id by lia. }
  destruct (filter _ (seq 0 n)); [ destruct Hin | simpl; lia ].
Qed.

Lemma upload_draw_loop fuel h addr size skipZero w dst src
    usedBits values w1 :
  MayIntersectFramebuffer h addr = true ->
  find_vfb h addr = Some dst ->
  GetPointer h addr = Some src ->
  scan_format dst src w = Some (Some (usedBits, values), w1) ->
  usedBits <> 0 ->
  values = 2 ^ Z.of_nat (stencil_bits (format dst)) /\
  loop_values (9 + fuel) values 1 =
    map (fun b => 2 ^ Z.of_nat b) (seq 0 (stencil_bits (format dst))) /\
  0 <= usedBits < values /\
  calls w1 = calls w /\
  stencilUploadProgram_ w1 = stencilUploadProgram_ w /\
  NotifyStencilUpload (9 + fuel) h addr size skipZero w =
    Some (true,
          add_calls
            (set_prog w1 (ensured_program h (stencilUploadProgram_ w)))
            (shader_path_calls h dst src (stencilUploadProgram_ w)
               (filter (plane_used usedBits)
                  (loop_values (9 + fuel) values 1)))).
Proof.
  intros Hmay Hfind Hptr Hscan Hne.
  destruct (scan_format_cases _ _ _ _ _ Hscan) as [(reads & Hw1) Hfmt].
  assert (Hcalls : calls w1 = calls w) by now subst w1.
  assert (Hprog : stencilUploadProgram_ w1 = stencilUploadProgram_ w)
    by now subst w1.
  assert (Hrun : (length (loop_values (9 + fuel) values 1) < 9 + fuel)%nat ->
    NotifyStencilUpload (9 + fuel) h addr size skipZero w =
    Some (true,
          add_calls
            (set_prog w1 (ensured_program h (stencilUploadProgram_ w)))
            (shader_path_calls h dst src (stencilUploadProgram_ w)
               (filter (plane_used usedBits)
                  (loop_values (9 + fuel) values 1))))).
  { intros Hlen. rewrite <- Hprog.
    now apply upload_shader_path. }
  destruct (format dst).
  - destruct Hfmt as [Hr _]. discriminate Hr.
  - destruct Hfmt as (u & [= -> ->] & Hu).
    repeat split; try assumption; try reflexivity; try lia.
    apply Hrun. rewrite loop_values_2. simpl. lia.
  - destruct Hfmt as (u & [= -> ->] & Hu).
    repeat split; try assumption; try reflexivity; try lia.
    apply Hrun. rewrite loop_values_16. simpl. lia.
  - destruct Hfmt as (u & [= -> ->] & Hu).
    repeat split; try assumption; try reflexivity; try lia.
    apply Hrun. rewrite loop_values_256. simpl. lia.
  - destruct Hfmt as [[= -> ->] _]. now contradiction Hne.
Qed.

(** C8.  In every upload that reaches the draw loop, the loop visits the
    values [1, 2, 4, ...] (the powers of two strictly below [values],
    which is 2, 16 or 256 by format) in increasing order, and the draws it
    issues are, in that order, one per visited value [i] with
    [usedBits & i] nonzero, each with [u_stencilValue] set from that [i];
    no other draw is issued.  The number of draws is the number of bits
    set in [usedBits] among the format's stencil bit positions, and it is
    at most 8. *)
Theorem draw_loop_one_draw_per_used_plane (fuel : nat) (h : Host)
    (addr size : Z) (skipZero : bool) (w : World)
    (dstBuffer : VirtualFramebuffer) (src : list byte)
    (usedBits values : Z) (w1 : World) :
  MayIntersectFramebuffer h addr = true ->
  find_vfb h addr = Some dstBuffer ->
  GetPointer h addr = Some src ->
  scan_format dstBuffer src w = Some (Some (usedBits, values), w1) ->
  usedBits <> 0 ->
  let bits := stencil_bits (format dstBuffer) in
  let visited := loop_values (9 + fuel) values 1 in
  let drawn := filter (plane_used usedBits) visited in
  exists new w2,
    NotifyStencilUpload (9 + fuel) h addr size skipZero w = Some (true, w2) /\
    calls w2 = calls w ++ new /\
    (values = 2 \/ values = 16 \/ values = 256) /\
    values = 2 ^ Z.of_nat bits /\
    visited = map (fun b => 2 ^ Z.of_nat b) (seq 0 bits) /\
    (forall i, In i visited -> 1 <= i < values) /\
    map snd (draws_with None None new) =
      map (fun i => Some (plane_weight (format dstBuffer) i)) drawn /\
    count_draws new = length drawn /\
    count_draws new = set_bits bits usedBits /\
    (count_draws new <= 8)%nat.
Proof.
  intros Hmay Hfind Hptr Hscan Hne bits visited drawn.
  destruct (upload_draw_loop fuel h addr size skipZero w dstBuffer src
              usedBits values w1 Hmay Hfind Hptr Hscan Hne)
    as (Hvalues & Hvisited & Hrange & Hcalls & Hprog & Hrun).
  fold bits in Hvalues, Hvisited. fold visited in Hvisited, Hrun.
  fold drawn in Hrun.
  exists (shader_path_calls h dstBuffer src (stencilUploadProgram_ w) drawn).
  eexists. split; [ exact Hrun | ].
  assert (Hcount :
    count_draws (shader_path_calls h dstBuffer src
                   (stencilUploadProgram_ w) drawn) = length drawn).
  { rewrite (count_draws_with _ None None), shader_path_draws.
    apply length_map. }
  assert (Hbits : (bits <= 8)%nat)
    by (unfold bits, stencil_bits; destruct (format dstBuffer); lia).
  assert (Hset : length drawn = set_bits bits usedBits).
  { unfold drawn. rewrite Hvisited. apply used_planes_count. }
  split; [ unfold add_calls, set_prog; cbn [calls]; now rewrite Hcalls | ].
  split.
  { clear - Hvalues Hrange Hne. revert Hvalues.
    unfold bits, stencil_bits.
    destruct (format dstBuffer); intros Hv; cbn in Hv; lia. }
  split; [ exact Hvalues | ].
  split; [ exact Hvisited | ].
  split.
  { intros i Hi. rewrite Hvisited in Hi.
    apply in_map_iff in Hi as (b & <- & Hb). apply in_seq in Hb.
    rewrite Hvalues. split.
    - pose proof (Z.pow_pos_nonneg 2 (Z.of_nat b)). lia.
    - apply Z.pow_lt_mono_r; lia. }
  split.
  { rewrite shader_path_draws, map_map. reflexivity. }
  split; [ exact Hcount | ].
  split; [ now rewrite Hcount | ].
  rewrite Hcount, Hset. unfold set_bits.
  pose proof (filter_length_le
                (fun b => Z.testbit usedBits (Z.of_nat b)) (seq 0 bits)) as Hle.
  rewrite length_seq in Hle. lia.
Qed.

Lemma draw_loop_one_draw_per_used_plane_witness :
  exists new w2,
    NotifyStencilUpload 9
      (sample_host GE_FORMAT_4444 (Some sample4444) None)
      0x04000000 8 false world0 = Some (true, w2) /\
    calls w2 = new /\
    count_draws new = 4%nat.
Proof.
  destruct (draw_loop_one_draw_per_used_plane 0
              (sample_host GE_FORMAT_4444 (Some sample4444) None)
              0x04000000 8 false world0 (sample_vfb GE_FORMAT_4444)
              sample4444 15 16 (add_loads world0 [0]%nat))
    as (new & w2 & Hrun & Hcalls & _ & _ & _ & _ & _ & _ & Hset & _);
    [ reflexivity | reflexivity | reflexivity | reflexivity | lia | ].
  exists new, w2. split; [ exact Hrun | ].
  split; [ exact Hcalls | ].
  rewrite Hset. reflexivity.
Defined.

Lemma plane_mask_scaled fmt b :
  (b < stencil_bits fmt)%nat ->
  plane_mask fmt (2 ^ Z.of_nat b) =
  2 ^ Z.of_nat b * (255 / (2 ^ Z.of_nat (stencil_bits fmt) - 1)).
Proof.
  destruct fmt; cbn [stencil_bits]; intros Hb; try lia.
  - assert (b = 0)%nat as -> by lia. reflexivity.
  - assert (b = 0 \/ b = 1 \/ b = 2 \/ b = 3)%nat
      as [-> | [-> | [-> | ->]]] by lia; reflexivity.
  - cbn [plane_mask]. change (255 / (2 ^ Z.of_nat 8 - 1)) with 1. lia.
Qed.

(** C9.  In every upload that reaches the draw loop, the stencil write
    mask in force at each draw is the one set for the plane [i] being
    drawn: [(i << 4) | i] for 4444, [i] for 8888 and [0xFF] for 5551; in
    all three formats this is [i] scaled from the format's stencil width
    to the 8-bit stencil byte, [i * (255 / (values - 1))].  The last mask
    set by the upload, after the loop, is [0xFF]. *)
Theorem draw_loop_stencil_masks (fuel : nat) (h : Host)
    (addr size : Z) (skipZero : bool) (w : World)
    (dstBuffer : VirtualFramebuffer) (src : list byte)
    (usedBits values : Z) (w1 : World) :
  MayIntersectFramebuffer h addr = true ->
  find_vfb h addr = Some dstBuffer ->
  GetPointer h addr = Some src ->
  scan_format dstBuffer src w = Some (Some (usedBits, values), w1) ->
  usedBits <> 0 ->
  let drawn :=
    filter (plane_used usedBits) (loop_values (9 + fuel) values 1) in
  exists new w2,
    NotifyStencilUpload (9 + fuel) h addr size skipZero w = Some (true, w2) /\
    calls w2 = calls w ++ new /\
    (format dstBuffer = GE_FORMAT_4444 ->
     map fst (draws_with None None new) =
       map (fun i => Some (Z.lor (Z.shiftl i 4) i)) drawn) /\
    (format dstBuffer = GE_FORMAT_8888 ->
     map fst (draws_with None None new) = map (fun i => Some i) drawn) /\
    (format dstBuffer = GE_FORMAT_5551 ->
     map fst (draws_with None None new) = map (fun _ => Some 0xFF) drawn) /\
    map fst (draws_with None None new) =
      map (fun i => Some (i * (255 / (values - 1)))) drawn /\
    (forall m, final_mask m new = Some 0xFF).
Proof.
  intros Hmay Hfind Hptr Hscan Hne drawn.
  destruct (upload_draw_loop fuel h addr size skipZero w dstBuffer src
              usedBits values w1 Hmay Hfind Hptr Hscan Hne)
    as (Hvalues & Hvisited & Hrange & Hcalls & Hprog & Hrun).
  fold drawn in Hrun.
  exists (shader_path_calls h dstBuffer src (stencilUploadProgram_ w) drawn).
  eexists. split; [ exact Hrun | ].
  split; [ unfold add_calls, set_prog; cbn [calls]; now rewrite Hcalls | ].
  rewrite shader_path_draws, map_map. cbn [fst].
  split; [ intros ->; reflexivity | ].
  split; [ intros ->; reflexivity | ].
  split; [ intros ->; reflexivity | ].
  split; [ | intros m; apply shader_path_final_mask ].
  apply map_ext_in. intros i Hi. f_equal.
  unfold drawn in Hi. apply filter_In in Hi as [Hi _].
  rewrite Hvisited in Hi. apply in_map_iff in Hi as (b & <- & Hb).
  apply in_seq in Hb. rewrite Hvalues. apply plane_mask_scaled. lia.
Qed.

Lemma draw_loop_stencil_masks_witness :
  exists new w2,
    NotifyStencilUpload 9
      (sample_host GE_FORMAT_4444 (Some sample4444) None)
      0x04000000 8 false world0 = Some (true, w2) /\
    calls w2 = new /\
    map fst (draws_with None None new) =
      [Some 0x11; Some 0x22; Some 0x44; Some 0x88] /\
    final_mask None new = Some 0xFF.
Proof.
  destruct (draw_loop_stencil_masks 0
              (sample_host GE_FORMAT_4444 (Some sample4444) None)
              0x04000000 8 false world0 (sample_vfb GE_FORMAT_4444)
              sample4444 15 16 (add_loads world0 [0]%nat))
    as (new & w2 & Hrun & Hcalls & H4444 & _ & _ & _ & Hfinal);
    [ reflexivity | reflexivity | reflexivity | reflexivity | lia | ].
  exists new, w2. split; [ exact Hrun | ].
  split; [ exact Hcalls | ].
  split; [ rewrite H4444 by reflexivity; reflexivity | apply Hfinal ].
Defined.

(** ** Compile failure *)

Lemma no_bind_in l : forallb (fun c => negb (is_bind c)) l = true ->
  forall p, ~ In (GlslBind p) l.
Proof.
  intros H p Hin. rewrite forallb_forall in H.
  specialize (H _ Hin). discriminate H.
Qed.

Lemma no_bind_after_ensure h dst src p planes :
  forallb (fun c => negb (is_bind c))
    (setup_calls h dst src p ++ loop_calls h dst p planes ++
     finish_calls h dst) = true.
Proof.
  rewrite !forallb_app.
  apply andb_true_iff; split; [ | apply andb_true_iff; split ].
  - unfold setup_calls. cbv zeta.
    destruct (use_blit h dst); [ reflexivity | ].
    destruct (fbo dst); reflexivity.
  - unfold loop_calls. induction planes as [|i planes IH]; [ reflexivity | ].
    cbn [flat_map]. rewrite forallb_app, IH. reflexivity.
  - unfold finish_calls. cbv zeta. destruct (use_blit h dst); reflexivity.
Qed.

(** C6.  The code at an input that breaks the claim.  The shader does not
    compile and the 8888 source has one used bit.  The failure branch logs
    and skips only [glsl_bind]; the null program then goes to
    [glsl_uniform_loc] (answered here with -1) and the upload runs on: the
    first call and the one after it each issue a draw and return true, and
    the program stays unset.  The claim has both calls do nothing. *)
Lemma compile_failure_not_a_noop :
  fst (glsl_create_source failing_host
         (GLSLES100PrefixProgram failing_host stencil_vs)
         (GLSLES100PrefixProgram failing_host stencil_fs)) = None /\
  exists w1 w2,
    NotifyStencilUpload 9 failing_host 0x04000000 8 false world0
      = Some (true, w1) /\
    stencilUploadProgram_ w1 = None /\
    count_draws (calls w1) = 1%nat /\
    NotifyStencilUpload 9 failing_host 0x04000000 8 false w1
      = Some (true, w2) /\
    stencilUploadProgram_ w2 = None /\
    count_draws (calls w2) = 2%nat.
Proof.
  split; [ reflexivity | ].
  eexists. eexists.
  split; [ vm_compute; reflexivity | ].
  split; [ reflexivity | ].
  split; [ reflexivity | ].
  split; [ vm_compute; reflexivity | ].
  split; reflexivity.
Qed.

(** The same defect at every input, for a host whose [glsl_uniform_loc]
    answers for a null program: after a failed compile the upload logs the
    diagnostic, binds nothing, leaves the cached program unset, and still
    issues the state setup, the stencil clear, at least one draw and the
    mask restore, and returns true. *)
Theorem compile_failure_upload_continues (fuel : nat) (h : Host)
    (addr size : Z) (skipZero : bool) (w : World)
    (dstBuffer : VirtualFramebuffer) (src : list byte)
    (usedBits values : Z) (w1 : World) (err : string) :
  MayIntersectFramebuffer h addr = true ->
  find_vfb h addr = Some dstBuffer ->
  GetPointer h addr = Some src ->
  scan_format dstBuffer src w = Some (Some (usedBits, values), w1) ->
  usedBits <> 0 ->
  stencilUploadProgram_ w = None ->
  glsl_create_source h (GLSLES100PrefixProgram h stencil_vs)
    (GLSLES100PrefixProgram h stencil_fs) = (None, err) ->
  let drawn :=
    filter (plane_used usedBits) (loop_values (9 + fuel) values 1) in
  exists rest w2,
    NotifyStencilUpload (9 + fuel) h addr size skipZero w = Some (true, w2) /\
    stencilUploadProgram_ w2 = None /\
    calls w2 = calls w ++
      [ GlslCreateSource (GLSLES100PrefixProgram h stencil_vs)
          (GLSLES100PrefixProgram h stencil_fs);
        ErrorLogReport compile_error_msg err;
        GlslUniformLoc None "tex";
        Uniform1i (glsl_uniform_loc h None "tex") 0 ] ++ rest /\
    rest = setup_calls h dstBuffer src None ++
           loop_calls h dstBuffer None drawn ++
           finish_calls h dstBuffer /\
    (forall p, ~ In (GlslBind p) rest) /\
    count_draws rest = length drawn /\
    (1 <= count_draws rest)%nat.
Proof.
  intros Hmay Hfind Hptr Hscan Hne Hnone Hfail drawn.
  destruct (upload_draw_loop fuel h addr size skipZero w dstBuffer src
              usedBits values w1 Hmay Hfind Hptr Hscan Hne)
    as (Hvalues & Hvisited & Hrange & Hcalls & Hprog & Hrun).
  fold drawn in Hrun.
  assert (Hens : ensured_program h (stencilUploadProgram_ w) = None)
    by (rewrite Hnone; cbn [ensured_program]; now rewrite Hfail).
  exists (setup_calls h dstBuffer src None ++
          loop_calls h dstBuffer None drawn ++ finish_calls h dstBuffer).
  eexists. split; [ exact Hrun | ].
  split; [ exact Hens | ].
  assert (Hcount :
    count_draws (setup_calls h dstBuffer src None ++
                 loop_calls h dstBuffer None drawn ++
                 finish_calls h dstBuffer) = length drawn).
  { rewrite (count_draws_with _ None None).
    rewrite draws_with_inert by apply setup_calls_inert.
    unfold loop_calls. rewrite draws_with_loop
      by (intros; apply finish_calls_no_draw).
    apply length_map. }
  split.
  { unfold add_calls, set_prog; cbn [calls]. rewrite Hcalls.
    unfold shader_path_calls. rewrite Hens, Hnone.
    cbn [ensure_calls]. rewrite Hfail. reflexivity. }
  split; [ reflexivity | ].
  split; [ apply no_bind_in, no_bind_after_ensure | ].
  split; [ exact Hcount | ].
  rewrite Hcount. unfold drawn. rewrite Hvisited, used_planes_count.
  apply set_bits_pos; [ now rewrite <- Hvalues | exact Hne ].
Qed.

Lemma compile_failure_upload_continues_witness :
  exists rest w2,
    NotifyStencilUpload 9 failing_host 0x04000000 8 false world0
      = Some (true, w2) /\
    stencilUploadProgram_ w2 = None /\
    count_draws rest = 1%nat /\
    nth_error (calls w2) 1 =
      Some (ErrorLogReport compile_error_msg "ERROR: 0:1: syntax error").
Proof.
  destruct (compile_failure_upload_continues 0 failing_host 0x04000000 8
              false world0 (sample_vfb GE_FORMAT_8888) sample8888 0x20 256
              (add_loads world0 [0; 1]%nat) "ERROR: 0:1: syntax error")
    as (rest & w2 & Hrun & Hprog & Hcalls & _ & _ & Hcount & _);
    [ reflexivity | reflexivity | reflexivity | reflexivity | lia
    | reflexivity | reflexivity | ].
  exists rest, w2. split; [ exact Hrun | ].
  split; [ exact Hprog | ].
  split; [ rewrite Hcount; reflexivity | ].
  rewrite Hcalls. reflexivity.
Defined.

(** * Further properties of the upload *)

(** ** Every upload as an outcome *)

Lemma scan_format_frame dst src w :
  scan_format dst src w =
  Some (fst (scan_pure dst src), add_loads w (snd (scan_pure dst src))).
Proof.
  unfold scan_pure, scan_format.
  destruct (format dst); unfold bind;
    rewrite ?StencilBits5551_run, ?StencilBits4444_run, ?StencilBits8888_run;
    try destruct (find _ _); unfold ret; cbn [fst snd loads add_loads app];
    rewrite ?add_loads_nil; reflexivity.
Qed.

Lemma world_eta w :
  {| stencilUploadProgram_ := stencilUploadProgram_ w;
     calls := calls w ++ []; loads := loads w ++ [] |} = w.
Proof. destruct w; cbn. now rewrite !app_nil_r. Qed.

Lemma loop_values_fuel fuel values :
  values = 0 \/ values = 2 \/ values = 16 \/ values = 256 ->
  loop_values (9 + fuel) values 1 = loop_values 9 values 1.
Proof. intros [-> | [-> | [-> | ->]]]; reflexivity. Qed.

Lemma scan_pure_values dst src u v reads :
  scan_pure dst src = (Some (u, v), reads) ->
  (v = 0 \/ v = 2 \/ v = 16 \/ v = 256) /\ 0 <= u /\ (u <> 0 -> u < v).
Proof.
  intros E. pose proof (scan_format_frame dst src world0) as F.
  rewrite E in F. cbn [fst snd] in F.
  destruct (scan_format_cases _ _ _ _ _ F) as [_ Hc].
  destruct (format dst).
  - destruct Hc as [Hc _]. discriminate.
  - destruct Hc as (u' & [= -> ->] & Hu). lia.
  - destruct Hc as (u' & [= -> ->] & Hu). lia.
  - destruct Hc as (u' & [= -> ->] & Hu). lia.
  - destruct Hc as [[= -> ->] _]. lia.
Qed.

Lemma upload_run fuel h addr size skipZero w :
  NotifyStencilUpload (9 + fuel) h addr size skipZero w =
  Some (after w (upload_outcome h addr skipZero (stencilUploadProgram_ w))).
Proof.
  unfold upload_outcome.
  destruct (MayIntersectFramebuffer h addr) eqn:Hmay; cbn [negb].
  2: { unfold NotifyStencilUpload. rewrite Hmay. unfold after, ret.
       cbn. now rewrite world_eta. }
  destruct (find_vfb h addr) as [dst|] eqn:Hfind.
  2: { unfold NotifyStencilUpload. rewrite Hmay, Hfind. unfold after, ret.
       cbn. now rewrite world_eta. }
  destruct (GetPointer h addr) as [src|] eqn:Hptr.
  2: { unfold NotifyStencilUpload. rewrite Hmay, Hfind, Hptr.
       unfold after, ret. cbn. now rewrite world_eta. }
  pose proof (scan_format_frame dst src w) as Hscan.
  destruct (scan_pure dst src) as [[[u v]|] reads] eqn:E; cbn [fst snd] in Hscan.
  2: { unfold NotifyStencilUpload. rewrite Hmay, Hfind, Hptr. cbn [negb].
       rewrite (bind_run _ _ _ _ _ Hscan). unfold after, ret, add_loads.
       cbn. now rewrite app_nil_r. }
  destruct (u =? 0) eqn:U.
  - apply Z.eqb_eq in U. subst u.
    rewrite (upload_zero_path _ _ _ _ _ _ _ _ _ _ Hmay Hfind Hptr Hscan).
    destruct skipZero; unfold after, add_loads, add_calls; cbn;
      now rewrite ?app_nil_r.
  - apply Z.eqb_neq in U.
    destruct (upload_draw_loop fuel h addr size skipZero w dst src u v _
                Hmay Hfind Hptr Hscan U) as (_ & _ & _ & _ & _ & Hrun).
    rewrite Hrun.
    rewrite loop_values_fuel by (apply (scan_pure_values _ _ _ _ _ E)).
    reflexivity.
Qed.

(** ** Predicates over the issued calls *)

Lemma forallb_flat_map {A B} (P : B -> bool) (f : A -> list B) l :
  (forall a, forallb P (f a) = true) -> forallb P (flat_map f l) = true.
Proof.
  intros H. induction l as [|a l IH]; [ reflexivity | ].
  cbn [flat_map]. now rewrite forallb_app, H, IH.
Qed.



(** Solves [forallb P] over one piece of the shader path when [P] is decided
    by the head constructor of a call. *)
Ltac by_pieces :=
  first
    [ reflexivity
    | unfold ensure_calls, ensured_program, setup_calls, finish_calls;
      cbv zeta;
      repeat match goal with
             | |- context [match ?p with Some _ => _ | None => _ end] =>
                 destruct p
             | |- context [if use_blit ?h ?d then _ else _] =>
                 destruct (use_blit h d)
             end;
      reflexivity ].

Lemma filter_flat_map_nil {A B} (Q : B -> bool) (f : A -> list B) l :
  (forall a, filter Q (f a) = []) -> filter Q (flat_map f l) = [].
Proof.
  intros H. induction l as [|a l IH]; [ reflexivity | ].
  cbn [flat_map]. now rewrite filter_app, H, IH.
Qed.

Lemma before_first_draw_app l1 l2 :
  forallb (fun c => negb (is_draw c)) l1 = true ->
  before_first_draw (l1 ++ l2) = l1 ++ before_first_draw l2.
Proof.
  induction l1 as [|c l1 IH]; intros H; [ reflexivity | ].
  cbn [forallb] in H. apply andb_true_iff in H as [Hc Hl].
  cbn [app before_first_draw]. apply negb_true_iff in Hc. rewrite Hc.
  now rewrite IH.
Qed.

Lemma drawn_pos fmt usedBits values visited :
  values = 2 ^ Z.of_nat (stencil_bits fmt) ->
  visited = map (fun b => 2 ^ Z.of_nat b) (seq 0 (stencil_bits fmt)) ->
  0 <= usedBits < values -> usedBits <> 0 ->
  (1 <= length (filter (plane_used usedBits) visited))%nat.
Proof.
  intros Hv -> Hr Hne. rewrite used_planes_count.
  apply set_bits_pos; [ now rewrite <- Hv | exact Hne ].
Qed.

Lemma shader_path_count_draws h dst src p planes :
  count_draws (shader_path_calls h dst src p planes) = length planes.
Proof.
  rewrite (count_draws_with _ None None), shader_path_draws.
  apply length_map.
Qed.

(** Up to the first draw of the shader path: the program block, the
    setup, and the mask and weight of the first drawn plane. *)
Lemma shader_path_before_first_draw h dst src p i planes :
  before_first_draw (shader_path_calls h dst src p (i :: planes)) =
  ensure_calls h p ++ setup_calls h dst src (ensured_program h p) ++
  [ StencilMaskSet (plane_mask (format dst) i);
    Uniform1f (glsl_uniform_loc h (ensured_program h p) "u_stencilValue")
      (plane_weight (format dst) i) ].
Proof.
  unfold shader_path_calls.
  rewrite before_first_draw_app by by_pieces.
  rewrite before_first_draw_app by by_pieces.
  reflexivity.
Qed.

Lemma filter_draw_loop dst u u1 v1 planes :
  filter is_draw (flat_map (plane_calls dst u u1 v1) planes) =
  repeat
    (DrawActiveTexture 0 0 (width dst) (height dst)
       (bufferWidth dst) (bufferHeight dst)
       (FLit 0) (FLit 0) u1 v1 ROTATION_LOCKED_HORIZONTAL false)
    (length planes).
Proof.
  induction planes as [|i planes IH]; [ reflexivity | ].
  cbn [flat_map length repeat]. rewrite filter_app, IH. reflexivity.
Qed.

(** ** Termination, the flag and the colour mask *)

(** X1.  Nine loop tests are enough for every upload: with at least that
    much fuel the call returns, and what it returns does not depend on the
    fuel beyond nine. *)
Theorem upload_returns (fuel : nat) (h : Host) (addr size : Z)
    (skipZero : bool) (w : World) :
  exists b w',
    NotifyStencilUpload (9 + fuel) h addr size skipZero w = Some (b, w') /\
    NotifyStencilUpload 9 h addr size skipZero w = Some (b, w').
Proof.
  eexists. eexists. split; [ apply upload_run | exact (upload_run 0 _ _ _ _ _) ].
Qed.

Lemma ensure_calls_nonempty h p : ensure_calls h p <> [].
Proof. unfold ensure_calls. destruct p; discriminate. Qed.

(** X2.  The returned flag tells whether anything was issued: an upload
    that returns false has issued no call and left the cached program as
    it was; one that returns true has issued at least one call.  In both
    cases the earlier calls are kept, in order. *)
Theorem upload_flag_tells_modification (fuel : nat) (h : Host)
    (addr size : Z) (skipZero : bool) (w : World) :
  exists b w' new,
    NotifyStencilUpload (9 + fuel) h addr size skipZero w = Some (b, w') /\
    calls w' = calls w ++ new /\
    (b = false ->
       new = [] /\ stencilUploadProgram_ w' = stencilUploadProgram_ w) /\
    (b = true -> new <> []).
Proof.
  rewrite upload_run. unfold after.
  eexists. eexists. eexists. split; [ reflexivity | ].
  split; [ reflexivity | ]. cbn [stencilUploadProgram_].
  unfold upload_outcome.
  destruct (negb (MayIntersectFramebuffer h addr));
    [ cbn; split; [ auto | discriminate ] | ].
  destruct (find_vfb h addr) as [dst|];
    [ | cbn; split; [ auto | discriminate ] ].
  destruct (GetPointer h addr) as [src|];
    [ | cbn; split; [ auto | discriminate ] ].
  destruct (scan_pure dst src) as [[[u v]|] reads];
    [ | cbn; split; [ auto | discriminate ] ].
  destruct (u =? 0).
  - destruct skipZero; cbn; split; try discriminate; auto.
  - cbn [modified issued program_after]. split; [ discriminate | ].
    intros _. unfold shader_path_calls. intros E.
    apply app_eq_nil in E as [E _]. now apply ensure_calls_nonempty in E.
Qed.



(** ** The resolution strategy *)

Lemma use_blit_cond h dst :
  use_blit h dst =
  SupportsFramebufferBlit h
  && negb (bufferWidth dst =? renderWidth dst)
  && match fbo dst with Some _ => true | None => false end.
Proof.
  unfold use_blit.
  destruct (bufferWidth dst =? renderWidth dst), (fbo dst),
    (SupportsFramebufferBlit h); reflexivity.
Qed.

(** The calls of the shader path up to the end of the loop. *)
Lemma shader_path_split h dst src p planes :
  shader_path_calls h dst src p planes =
  (ensure_calls h p ++ setup_calls h dst src (ensured_program h p) ++
   loop_calls h dst (ensured_program h p) planes) ++ finish_calls h dst.
Proof. unfold shader_path_calls. now rewrite <- !app_assoc. Qed.

Lemma before_loop_filter (Q : Call -> bool) h dst src p planes :
  (forall u u1 v1 i, filter Q (plane_calls dst u u1 v1 i) = []) ->
  filter Q (ensure_calls h p) = [] ->
  filter Q (ensure_calls h p ++ setup_calls h dst src (ensured_program h p) ++
            loop_calls h dst (ensured_program h p) planes) =
  filter Q (setup_calls h dst src (ensured_program h p)).
Proof.
  intros Hl He. unfold loop_calls.
  rewrite !filter_app, He, filter_flat_map_nil by (intros; apply Hl).
  now rewrite app_nil_r.
Qed.

(** X4.  In an upload that reaches the shader, a temporary target is
    acquired and blitted exactly when blits are supported, the target is
    upscaled ([bufferWidth <> renderWidth]) and it has a framebuffer.  Then
    one temporary of the buffer size is acquired before the first draw, and
    after the last draw the upload ends with: stencil mask restored, one
    nearest-neighbour blit of the stencil plane alone from the temporary to
    the target at render size, framebuffer rebound.  Otherwise no temporary
    is acquired and no blit is issued. *)
Theorem upload_blit_strategy (fuel : nat) (h : Host)
    (addr size : Z) (skipZero : bool) (w : World)
    (dstBuffer : VirtualFramebuffer) (src : list byte)
    (usedBits values : Z) (w1 : World) :
  MayIntersectFramebuffer h addr = true ->
  find_vfb h addr = Some dstBuffer ->
  GetPointer h addr = Some src ->
  scan_format dstBuffer src w = Some (Some (usedBits, values), w1) ->
  usedBits <> 0 ->
  let blit :=
    SupportsFramebufferBlit h
    && negb (bufferWidth dstBuffer =? renderWidth dstBuffer)
    && match fbo dstBuffer with Some _ => true | None => false end in
  let bw := to_u16 (bufferWidth dstBuffer) in
  let bh := to_u16 (bufferHeight dstBuffer) in
  let temp := GetTempFBO_result h bw bh in
  exists pre w2,
    NotifyStencilUpload (9 + fuel) h addr size skipZero w = Some (true, w2) /\
    calls w2 = calls w ++ pre ++
      [ StencilMaskSet 0xFF ] ++
      (if blit then
         [ BlitFramebuffer temp 0 0 bw bh (fbo dstBuffer) 0 0
             (renderWidth dstBuffer) (renderHeight dstBuffer)
             FB_STENCIL_BIT FB_BLIT_NEAREST ]
       else []) ++
      [ RebindFramebuffer ] /\
    filter is_blit pre = [] /\
    filter is_get_temp pre =
      (if blit then [ GetTempFBO bw bh FBO_8888 ] else []) /\
    (1 <= count_draws pre)%nat /\
    filter is_get_temp (before_first_draw pre) =
      (if blit then [ GetTempFBO bw bh FBO_8888 ] else []).
Proof.
  intros Hmay Hfind Hptr Hscan Hne blit bw bh temp.
  destruct (upload_draw_loop fuel h addr size skipZero w dstBuffer src
              usedBits values w1 Hmay Hfind Hptr Hscan Hne)
    as (Hvalues & Hvisited & Hrange & Hcalls & _ & Hrun).
  pose proof (drawn_pos _ _ _ _ Hvalues Hvisited Hrange Hne) as Hpos.
  set (p := stencilUploadProgram_ w) in *.
  set (planes := filter (plane_used usedBits)
                   (loop_values (9 + fuel) values 1)) in *.
  exists (ensure_calls h p ++
          setup_calls h dstBuffer src (ensured_program h p) ++
          loop_calls h dstBuffer (ensured_program h p) planes).
  eexists. split; [ exact Hrun | ].
  unfold add_calls, set_prog; cbn [calls]. rewrite Hcalls.
  rewrite shader_path_split.
  unfold blit. rewrite <- use_blit_cond.
  assert (Htemp :
    filter is_get_temp (setup_calls h dstBuffer src (ensured_program h p)) =
    (if use_blit h dstBuffer then [ GetTempFBO bw bh FBO_8888 ] else [])).
  { unfold setup_calls. cbv zeta. subst bw bh.
    destruct (use_blit h dstBuffer); [ reflexivity | ].
    destruct (fbo dstBuffer); reflexivity. }
  split; [ | split; [ | split; [ | split ] ] ].
  - do 2 f_equal.
    unfold finish_calls. cbv zeta. subst temp bw bh.
    destruct (use_blit h dstBuffer); reflexivity.
  - rewrite before_loop_filter by (intros; by_pieces). by_pieces.
  - rewrite before_loop_filter by (intros; by_pieces). exact Htemp.
  - unfold count_draws, loop_calls.
    rewrite !filter_app, filter_draw_loop, !length_app, repeat_length. lia.
  - destruct planes as [|i planes']; [ cbn in Hpos; lia | ].
    rewrite before_first_draw_app by by_pieces.
    rewrite before_first_draw_app by by_pieces.
    rewrite !filter_app, Htemp.
    replace (filter is_get_temp (ensure_calls h p)) with (@nil Call)
      by (symmetry; by_pieces).
    cbn. now rewrite app_nil_r.
Qed.

Lemma upload_blit_strategy_witness :
  exists pre w2,
    NotifyStencilUpload 9 failing_host 0x04000000 8 false world0
      = Some (true, w2) /\
    calls w2 = pre ++
      [ StencilMaskSet 0xFF;
        BlitFramebuffer {| fbo_id := 9 |} 0 0 2 1 (Some {| fbo_id := 7 |})
          0 0 4 2 FB_STENCIL_BIT FB_BLIT_NEAREST;
        RebindFramebuffer ] /\
    filter is_get_temp (before_first_draw pre) = [ GetTempFBO 2 1 FBO_8888 ].
Proof.
  destruct (upload_blit_strategy 0 failing_host 0x04000000 8 false world0
              (sample_vfb GE_FORMAT_8888) sample8888 0x20 256
              (add_loads world0 [0; 1]%nat))
    as (pre & w2 & Hrun & Hcalls & _ & _ & _ & Htemp);
    [ reflexivity | reflexivity | reflexivity | reflexivity | lia | ].
  exists pre, w2. split; [ exact Hrun | ].
  split; [ exact Hcalls | exact Htemp ].
Defined.

(** X5.  In an upload that reaches the shader, the render target bound
    before the first draw is the temporary when blitting, else the
    target's own framebuffer if it has one (none is bound if it has not);
    one viewport is set before the first draw, at the buffer size when
    blitting and at the render size otherwise, both truncated to 16 bits.
    No other target is bound and no other viewport is set anywhere in the
    upload, so these are the ones in force for every draw. *)
Theorem upload_render_target_and_viewport (fuel : nat) (h : Host)
    (addr size : Z) (skipZero : bool) (w : World)
    (dstBuffer : VirtualFramebuffer) (src : list byte)
    (usedBits values : Z) (w1 : World) :
  MayIntersectFramebuffer h addr = true ->
  find_vfb h addr = Some dstBuffer ->
  GetPointer h addr = Some src ->
  scan_format dstBuffer src w = Some (Some (usedBits, values), w1) ->
  usedBits <> 0 ->
  let blit :=
    SupportsFramebufferBlit h
    && negb (bufferWidth dstBuffer =? renderWidth dstBuffer)
    && match fbo dstBuffer with Some _ => true | None => false end in
  let bw := to_u16 (bufferWidth dstBuffer) in
  let bh := to_u16 (bufferHeight dstBuffer) in
  let target :=
    if blit then [ BindFramebufferAsRenderTarget (GetTempFBO_result h bw bh) ]
    else match fbo dstBuffer with
         | Some f => [ BindFramebufferAsRenderTarget f ]
         | None => []
         end in
  let viewport :=
    if blit then Viewport 0 0 bw bh
    else Viewport 0 0 (to_u16 (renderWidth dstBuffer))
           (to_u16 (renderHeight dstBuffer)) in
  exists new w2,
    NotifyStencilUpload (9 + fuel) h addr size skipZero w = Some (true, w2) /\
    calls w2 = calls w ++ new /\
    filter is_bind_target new = target /\
    filter is_viewport new = [ viewport ] /\
    (1 <= count_draws new)%nat /\
    filter is_bind_target (before_first_draw new) = target /\
    filter is_viewport (before_first_draw new) = [ viewport ].
Proof.
  intros Hmay Hfind Hptr Hscan Hne blit bw bh target viewport.
  destruct (upload_draw_loop fuel h addr size skipZero w dstBuffer src
              usedBits values w1 Hmay Hfind Hptr Hscan Hne)
    as (Hvalues & Hvisited & Hrange & Hcalls & _ & Hrun).
  pose proof (drawn_pos _ _ _ _ Hvalues Hvisited Hrange Hne) as Hpos.
  set (p := stencilUploadProgram_ w) in *.
  set (planes := filter (plane_used usedBits)
                   (loop_values (9 + fuel) values 1)) in *.
  eexists. eexists. split; [ exact Hrun | ].
  unfold add_calls, set_prog; cbn [calls]. rewrite Hcalls.
  split; [ reflexivity | ].
  unfold target, viewport, blit. rewrite <- use_blit_cond. subst bw bh.
  assert (Hbind :
    filter is_bind_target
      (setup_calls h dstBuffer src (ensured_program h p)) =
    (if use_blit h dstBuffer
     then [ BindFramebufferAsRenderTarget
              (GetTempFBO_result h (to_u16 (bufferWidth dstBuffer))
                 (to_u16 (bufferHeight dstBuffer))) ]
     else match fbo dstBuffer with
          | Some f => [ BindFramebufferAsRenderTarget f ]
          | None => []
          end)).
  { unfold setup_calls. cbv zeta.
    destruct (use_blit h dstBuffer); [ reflexivity | ].
    destruct (fbo dstBuffer); reflexivity. }
  assert (Hview :
    filter is_viewport
      (setup_calls h dstBuffer src (ensured_program h p)) =
    [ if use_blit h dstBuffer
      then Viewport 0 0 (to_u16 (bufferWidth dstBuffer))
             (to_u16 (bufferHeight dstBuffer))
      else Viewport 0 0 (to_u16 (renderWidth dstBuffer))
             (to_u16 (renderHeight dstBuffer)) ]).
  { unfold setup_calls. cbv zeta.
    destruct (use_blit h dstBuffer); [ reflexivity | ].
    destruct (fbo dstBuffer); reflexivity. }
  split; [ | split; [ | split; [ | split ] ] ].
  - rewrite shader_path_split, (filter_app is_bind_target).
    rewrite before_loop_filter by (intros; by_pieces).
    replace (filter is_bind_target (finish_calls h dstBuffer))
      with (@nil Call) by (symmetry; by_pieces).
    now rewrite app_nil_r.
  - rewrite shader_path_split, (filter_app is_viewport).
    rewrite before_loop_filter by (intros; by_pieces).
    replace (filter is_viewport (finish_calls h dstBuffer))
      with (@nil Call) by (symmetry; by_pieces).
    now rewrite app_nil_r.
  - now rewrite shader_path_count_draws.
  - destruct planes as [|i planes']; [ cbn in Hpos; lia | ].
    rewrite shader_path_before_first_draw, !filter_app, Hbind.
    replace (filter is_bind_target (ensure_calls h p)) with (@nil Call)
      by (symmetry; by_pieces).
    cbn. now rewrite app_nil_r.
  - destruct planes as [|i planes']; [ cbn in Hpos; lia | ].
    rewrite shader_path_before_first_draw, !filter_app, Hview.
    replace (filter is_viewport (ensure_calls h p)) with (@nil Call)
      by (symmetry; by_pieces).
    reflexivity.
Qed.

Lemma upload_render_target_and_viewport_witness :
  exists new w2,
    NotifyStencilUpload 9 failing_host 0x04000000 8 false world0
      = Some (true, w2) /\
    calls w2 = new /\
    filter is_bind_target (before_first_draw new) =
      [ BindFramebufferAsRenderTarget {| fbo_id := 9 |} ] /\
    filter is_viewport (before_first_draw new) = [ Viewport 0 0 2 1 ].
Proof.
  destruct (upload_render_target_and_viewport 0 failing_host 0x04000000 8
              false world0 (sample_vfb GE_FORMAT_8888) sample8888 0x20 256
              (add_loads world0 [0; 1]%nat))
    as (new & w2 & Hrun & Hcalls & _ & _ & _ & Hbind & Hview);
    [ reflexivity | reflexivity | reflexivity | reflexivity | lia | ].
  exists new, w2. split; [ exact Hrun | ].
  split; [ exact Hcalls | ]. split; [ exact Hbind | exact Hview ].
Defined.

(** ** State set up before the first draw *)




(** ** The comparison weight *)

Lemma filter_uniform1f_loop dst u u1 v1 planes :
  filter is_uniform1f (flat_map (plane_calls dst u u1 v1) planes) =
  map (fun i => Uniform1f u (plane_weight (format dst) i)) planes.
Proof.
  induction planes as [|i planes IH]; [ reflexivity | ].
  cbn [flat_map map]. rewrite filter_app, IH. reflexivity.
Qed.

(** X7.  In an upload that reaches the shader, the only float uniform
    set is [u_stencilValue], at the location looked up in the program the
    upload ends with, once per drawn plane [i] and in loop order, with the
    value [i * (16/255)] for 4444, [i * (128/255)] for 5551 and
    [i * (1/255)] for 8888. *)
Theorem upload_plane_weights (fuel : nat) (h : Host)
    (addr size : Z) (skipZero : bool) (w : World)
    (dstBuffer : VirtualFramebuffer) (src : list byte)
    (usedBits values : Z) (w1 : World) :
  MayIntersectFramebuffer h addr = true ->
  find_vfb h addr = Some dstBuffer ->
  GetPointer h addr = Some src ->
  scan_format dstBuffer src w = Some (Some (usedBits, values), w1) ->
  usedBits <> 0 ->
  let drawn :=
    filter (plane_used usedBits) (loop_values (9 + fuel) values 1) in
  exists new w2,
    NotifyStencilUpload (9 + fuel) h addr size skipZero w = Some (true, w2) /\
    calls w2 = calls w ++ new /\
    let loc :=
      glsl_uniform_loc h (stencilUploadProgram_ w2) "u_stencilValue" in
    let num := match format dstBuffer with
               | GE_FORMAT_4444 => 16
               | GE_FORMAT_5551 => 128
               | _ => 1
               end in
    filter is_uniform1f new =
      map (fun i => Uniform1f loc (FPlane i num)) drawn.
Proof.
  intros Hmay Hfind Hptr Hscan Hne drawn.
  destruct (upload_draw_loop fuel h addr size skipZero w dstBuffer src
              usedBits values w1 Hmay Hfind Hptr Hscan Hne)
    as (_ & _ & _ & Hcalls & _ & Hrun).
  fold drawn in Hrun.
  eexists. eexists. split; [ exact Hrun | ].
  unfold add_calls, set_prog; cbn [calls stencilUploadProgram_].
  rewrite Hcalls. split; [ reflexivity | ].
  cbv zeta. unfold shader_path_calls, loop_calls.
  rewrite !filter_app, filter_uniform1f_loop.
  replace (filter is_uniform1f (ensure_calls h (stencilUploadProgram_ w)))
    with (@nil Call) by (symmetry; by_pieces).
  replace (filter is_uniform1f
             (setup_calls h dstBuffer src
                (ensured_program h (stencilUploadProgram_ w))))
    with (@nil Call) by (symmetry; by_pieces).
  replace (filter is_uniform1f (finish_calls h dstBuffer))
    with (@nil Call) by (symmetry; by_pieces).
  cbn [app]. rewrite app_nil_r.
  apply map_ext. intros i. unfold plane_weight.
  destruct (format dstBuffer); reflexivity.
Qed.

Lemma upload_plane_weights_witness :
  exists new w2,
    NotifyStencilUpload 9
      (sample_host GE_FORMAT_4444 (Some sample4444) None)
      0x04000000 8 false world0 = Some (true, w2) /\
    calls w2 = new /\
    filter is_uniform1f new =
      [ Uniform1f (-1) (FPlane 1 16); Uniform1f (-1) (FPlane 2 16);
        Uniform1f (-1) (FPlane 4 16); Uniform1f (-1) (FPlane 8 16) ].
Proof.
  destruct (upload_plane_weights 0
              (sample_host GE_FORMAT_4444 (Some sample4444) None)
              0x04000000 8 false world0 (sample_vfb GE_FORMAT_4444)
              sample4444 15 16 (add_loads world0 [0]%nat))
    as (new & w2 & Hrun & Hcalls & Hw);
    [ reflexivity | reflexivity | reflexivity | reflexivity | lia | ].
  exists new, w2. split; [ exact Hrun | ].
  split; [ exact Hcalls | ].
  cbv zeta in Hw. rewrite Hw.
  assert (Hp : stencilUploadProgram_ w2 = None).
  { assert (E : Some (true, w2) = Some (true, w2)) by reflexivity.
    rewrite <- Hrun in E at 1. vm_compute in E.
    injection E as <-. reflexivity. }
  rewrite Hp. reflexivity.
Defined.

(** ** The cached program *)

Lemma after_ensure_no_program_call h dst src p planes :
  forallb (fun c => negb (is_create_source c || is_error_report c
                          || is_uniform1i c || is_bind c))
    (setup_calls h dst src p ++ loop_calls h dst p planes ++
     finish_calls h dst) = true.
Proof.
  unfold loop_calls.
  rewrite !forallb_app, forallb_flat_map by (intros; reflexivity).
  apply andb_true_iff. split; [ by_pieces | ].
  apply andb_true_iff. split; [ reflexivity | by_pieces ].
Qed.

Lemma cached_outcome h addr skipZero prog :
  let o := upload_outcome h addr skipZero (Some prog) in
  program_after o = Some prog /\
  forall c, In c (issued o) ->
    is_create_source c = false /\ is_error_report c = false /\
    is_uniform1i c = false /\
    (is_bind c = true -> c = GlslBind prog).
Proof.
  cbv zeta. unfold upload_outcome.
  destruct (negb (MayIntersectFramebuffer h addr));
    [ split; [ reflexivity | intros c [] ] | ].
  destruct (find_vfb h addr) as [dst|];
    [ | split; [ reflexivity | intros c [] ] ].
  destruct (GetPointer h addr) as [src|];
    [ | split; [ reflexivity | intros c [] ] ].
  destruct (scan_pure dst src) as [[[u v]|] reads];
    [ | split; [ reflexivity | intros c [] ] ].
  destruct (u =? 0).
  - destruct skipZero; (split; [ reflexivity | ]); cbn [issued];
      [ intros c [] | ].
    intros c Hc. unfold clear_calls in Hc. cbn [In] in Hc.
    repeat (destruct Hc as [<- | Hc]; [ repeat split; discriminate | ]).
    destruct Hc.
  - cbn [program_after issued ensured_program]. split; [ reflexivity | ].
    intros c Hc. unfold shader_path_calls in Hc.
    cbn [ensure_calls ensured_program app] in Hc.
    destruct Hc as [<- | Hc]; [ repeat split; auto | ].
    pose proof (after_ensure_no_program_call h dst src (Some prog)
                  (filter (plane_used u) (loop_values 9 v 1))) as H.
    rewrite forallb_forall in H. specialize (H _ Hc).
    apply negb_true_iff, orb_false_iff in H as [H Hb].
    apply orb_false_iff in H as [H H3].
    apply orb_false_iff in H as [H1 H2].
    repeat split; auto. rewrite Hb. discriminate.
Qed.

(** X8.  Once a program is cached, no upload compiles again, reports a
    compile error or sets the sampler uniform again, whatever the host:
    the cached program is kept, and the only program an upload binds is
    the cached one. *)
Theorem upload_with_cached_program (fuel : nat) (h : Host)
    (addr size : Z) (skipZero : bool) (w : World) (prog : GLSLProgram) :
  stencilUploadProgram_ w = Some prog ->
  exists b w' new,
    NotifyStencilUpload (9 + fuel) h addr size skipZero w = Some (b, w') /\
    calls w' = calls w ++ new /\
    stencilUploadProgram_ w' = Some prog /\
    (forall vs fs, ~ In (GlslCreateSource vs fs) new) /\
    (forall msg err, ~ In (ErrorLogReport msg err) new) /\
    (forall loc v, ~ In (Uniform1i loc v) new) /\
    (forall q, In (GlslBind q) new -> q = prog).
Proof.
  intros Hp. rewrite upload_run, Hp. unfold after.
  eexists. eexists. eexists. split; [ reflexivity | ].
  split; [ reflexivity | ]. cbn [stencilUploadProgram_].
  destruct (cached_outcome h addr skipZero prog) as [Hprog Hall].
  split; [ exact Hprog | ].
  split; [ | split; [ | split ] ].
  - intros vs fs Hin. destruct (Hall _ Hin) as (H & _). discriminate.
  - intros msg err Hin. destruct (Hall _ Hin) as (_ & H & _). discriminate.
  - intros loc v Hin. destruct (Hall _ Hin) as (_ & _ & H & _).
    discriminate.
  - intros q Hin. destruct (Hall _ Hin) as (_ & _ & _ & H).
    specialize (H eq_refl). now injection H.
Qed.

Lemma upload_with_cached_program_witness :
  exists b w',
    NotifyStencilUpload 9 failing_host 0x04000000 8 false
      (set_prog world0 (Some {| program_id := 3 |})) = Some (b, w') /\
    stencilUploadProgram_ w' = Some {| program_id := 3 |} /\
    forall vs fs, ~ In (GlslCreateSource vs fs) (calls w').
Proof.
  destruct (upload_with_cached_program 0 failing_host 0x04000000 8 false
              (set_prog world0 (Some {| program_id := 3 |}))
              {| program_id := 3 |})
    as (b & w' & new & Hrun & Hcalls & Hprog & Hnone & _);
    [ reflexivity | ].
  exists b, w'. split; [ exact Hrun | ].
  split; [ exact Hprog | ].
  rewrite Hcalls. exact Hnone.
Defined.

(** X9.  When no program is cached and the shader compiles, an upload
    that reaches the shader compiles it once, caches and binds it, sets
    its [tex] sampler to unit 0, and goes on without another compile or
    any error report; every later upload, whatever its arguments, keeps
    that program and does not compile again. *)
Theorem upload_compiles_once (fuel : nat) (h : Host)
    (addr size : Z) (skipZero : bool) (w : World)
    (dstBuffer : VirtualFramebuffer) (src : list byte)
    (usedBits values : Z) (w1 : World) (prog : GLSLProgram) (err : string) :
  MayIntersectFramebuffer h addr = true ->
  find_vfb h addr = Some dstBuffer ->
  GetPointer h addr = Some src ->
  scan_format dstBuffer src w = Some (Some (usedBits, values), w1) ->
  usedBits <> 0 ->
  stencilUploadProgram_ w = None ->
  glsl_create_source h (GLSLES100PrefixProgram h stencil_vs)
    (GLSLES100PrefixProgram h stencil_fs) = (Some prog, err) ->
  exists rest w2,
    NotifyStencilUpload (9 + fuel) h addr size skipZero w = Some (true, w2) /\
    stencilUploadProgram_ w2 = Some prog /\
    calls w2 = calls w ++
      [ GlslCreateSource (GLSLES100PrefixProgram h stencil_vs)
          (GLSLES100PrefixProgram h stencil_fs);
        GlslBind prog;
        GlslUniformLoc (Some prog) "tex";
        Uniform1i (glsl_uniform_loc h (Some prog) "tex") 0 ] ++ rest /\
    (forall vs fs, ~ In (GlslCreateSource vs fs) rest) /\
    (forall msg e, ~ In (ErrorLogReport msg e) rest) /\
    forall fuel' h' addr' size' skipZero',
    exists b w3 new,
      NotifyStencilUpload (9 + fuel') h' addr' size' skipZero' w2
        = Some (b, w3) /\
      calls w3 = calls w2 ++ new /\
      stencilUploadProgram_ w3 = Some prog /\
      forall vs fs, ~ In (GlslCreateSource vs fs) new.
Proof.
  intros Hmay Hfind Hptr Hscan Hne Hnone Hok.
  destruct (upload_draw_loop fuel h addr size skipZero w dstBuffer src
              usedBits values w1 Hmay Hfind Hptr Hscan Hne)
    as (_ & _ & _ & Hcalls & _ & Hrun).
  assert (Hens : ensured_program h (stencilUploadProgram_ w) = Some prog)
    by (rewrite Hnone; cbn [ensured_program]; now rewrite Hok).
  set (planes := filter (plane_used usedBits)
                   (loop_values (9 + fuel) values 1)) in *.
  exists (setup_calls h dstBuffer src (Some prog) ++
          loop_calls h dstBuffer (Some prog) planes ++
          finish_calls h dstBuffer).
  eexists. split; [ exact Hrun | ].
  split; [ exact Hens | ].
  pose proof (after_ensure_no_program_call h dstBuffer src (Some prog) planes)
    as Hrest.
  rewrite forallb_forall in Hrest.
  split.
  { unfold add_calls, set_prog; cbn [calls]. rewrite Hcalls.
    unfold shader_path_calls. rewrite Hens, Hnone.
    cbn [ensure_calls]. rewrite Hok. reflexivity. }
  split.
  { intros vs fs Hin. specialize (Hrest _ Hin). discriminate. }
  split.
  { intros msg e Hin. specialize (Hrest _ Hin). discriminate. }
  intros fuel' h' addr' size' skipZero'.
  rewrite upload_run. unfold after.
  unfold add_calls at 1, set_prog at 1. cbn [stencilUploadProgram_].
  rewrite Hens.
  eexists. eexists. eexists. split; [ reflexivity | ].
  split; [ reflexivity | ]. cbn [stencilUploadProgram_].
  destruct (cached_outcome h' addr' skipZero' prog) as [Hprog Hall].
  split; [ exact Hprog | ].
  intros vs fs Hin. destruct (Hall _ Hin) as (H & _). discriminate.
Qed.

Lemma upload_compiles_once_witness :
  exists w2 b w3,
    NotifyStencilUpload 9
      (sample_host GE_FORMAT_8888 (Some sample8888)
         (Some {| program_id := 3 |}))
      0x04000000 8 false world0 = Some (true, w2) /\
    stencilUploadProgram_ w2 = Some {| program_id := 3 |} /\
    NotifyStencilUpload 9 failing_host 0x04000000 8 false w2
      = Some (b, w3) /\
    stencilUploadProgram_ w3 = Some {| program_id := 3 |}.
Proof.
  destruct (upload_compiles_once 0
              (sample_host GE_FORMAT_8888 (Some sample8888)
                 (Some {| program_id := 3 |}))
              0x04000000 8 false world0 (sample_vfb GE_FORMAT_8888)
              sample8888 0x20 256 (add_loads world0 [0; 1]%nat)
              {| program_id := 3 |} EmptyString)
    as (rest & w2 & Hrun & Hprog & _ & _ & _ & Hlater);
    [ reflexivity | reflexivity | reflexivity | reflexivity | lia
    | reflexivity | reflexivity | ].
  destruct (Hlater 0%nat failing_host 0x04000000 8 false)
    as (b & w3 & new & Hrun2 & _ & Hprog2 & _).
  exists w2, b, w3. split; [ exact Hrun | ].
  split; [ exact Hprog | ]. split; [ exact Hrun2 | exact Hprog2 ].
Defined.

(** ** Repetition, [skipZero] and empty targets *)

(** X10.  With a program cached, an upload repeated at once with the same
    arguments returns the same flag and issues the same calls again. *)
Theorem upload_repeats (fuel : nat) (h : Host) (addr size : Z)
    (skipZero : bool) (w : World) (prog : GLSLProgram) :
  stencilUploadProgram_ w = Some prog ->
  exists b new w1 w2,
    NotifyStencilUpload (9 + fuel) h addr size skipZero w = Some (b, w1) /\
    calls w1 = calls w ++ new /\
    NotifyStencilUpload (9 + fuel) h addr size skipZero w1 = Some (b, w2) /\
    calls w2 = calls w1 ++ new.
Proof.
  intros Hp.
  destruct (cached_outcome h addr skipZero prog) as [Hprog _].
  exists (modified (upload_outcome h addr skipZero (Some prog))).
  exists (issued (upload_outcome h addr skipZero (Some prog))).
  eexists. eexists.
  split; [ rewrite upload_run, Hp; reflexivity | ].
  split; [ reflexivity | ].
  split; [ rewrite upload_run; cbn [stencilUploadProgram_];
           rewrite Hprog; reflexivity | ].
  reflexivity.
Qed.

Lemma upload_repeats_witness :
  exists b new w1 w2,
    NotifyStencilUpload 9 failing_host 0x04000000 8 false
      (set_prog world0 (Some {| program_id := 3 |})) = Some (b, w1) /\
    calls w1 = new /\
    NotifyStencilUpload 9 failing_host 0x04000000 8 false w1
      = Some (b, w2) /\
    calls w2 = new ++ new.
Proof.
  destruct (upload_repeats 0 failing_host 0x04000000 8 false
              (set_prog world0 (Some {| program_id := 3 |}))
              {| program_id := 3 |})
    as (b & new & w1 & w2 & H1 & Hc1 & H2 & Hc2); [ reflexivity | ].
  exists b, new, w1, w2. split; [ exact H1 | ].
  split; [ exact Hc1 | ]. split; [ exact H2 | ].
  rewrite Hc2, Hc1. reflexivity.
Defined.

(** X11.  [skipZero] matters only for an all-zero scan: either the upload
    does the same with and without it, or with it the upload returns false
    after the scan and without it the upload adds the clear-only calls to
    that and returns true. *)
Theorem skip_zero_only_drops_the_clear (fuel : nat) (h : Host)
    (addr size : Z) (w : World) :
  NotifyStencilUpload (9 + fuel) h addr size true w =
    NotifyStencilUpload (9 + fuel) h addr size false w \/
  exists w1,
    calls w1 = calls w /\
    NotifyStencilUpload (9 + fuel) h addr size true w = Some (false, w1) /\
    NotifyStencilUpload (9 + fuel) h addr size false w =
      Some (true,
            add_calls w1
              [ ScissorTestDisable;
                ColorMaskSet false false false true;
                ClearColor 0 0 0 0;
                ClearStencil 0;
                Clear (Z.lor GL_STENCIL_BUFFER_BIT GL_COLOR_BUFFER_BIT) ]).
Proof.
  rewrite !upload_run. unfold upload_outcome.
  destruct (negb (MayIntersectFramebuffer h addr)); [ now left | ].
  destruct (find_vfb h addr) as [dst|]; [ | now left ].
  destruct (GetPointer h addr) as [src|]; [ | now left ].
  destruct (scan_pure dst src) as [[[u v]|] reads]; [ | now left ].
  destruct (u =? 0); [ | now left ].
  right. exists (add_loads w reads).
  split; [ reflexivity | ].
  unfold after, add_loads, add_calls. cbn. rewrite app_nil_r. auto.
Qed.

Lemma scan_format_empty dst src w :
  to_u32 (fb_stride dst * bufferHeight dst) = 0 ->
  exists r, scan_format dst src w = Some (r, w) /\
            (r = None \/ exists v, r = Some (0, v)).
Proof.
  intros Hz. unfold scan_format. rewrite Hz.
  destruct (format dst); unfold bind;
    rewrite ?StencilBits5551_run, ?StencilBits4444_run, ?StencilBits8888_run;
    cbn; unfold ret; rewrite ?add_loads_nil; eauto.
Qed.

(** X12.  A target of zero extent ([fb_stride * bufferHeight] is 0 as a
    [u32]) is never scanned: with [skipZero] the upload returns false and
    changes nothing, whatever the format and whatever the memory holds. *)
Theorem upload_empty_target (fuel : nat) (h : Host) (addr size : Z)
    (w : World) (dstBuffer : VirtualFramebuffer) :
  find_vfb h addr = Some dstBuffer ->
  to_u32 (fb_stride dstBuffer * bufferHeight dstBuffer) = 0 ->
  NotifyStencilUpload fuel h addr size true w = Some (false, w).
Proof.
  intros Hfind Hz. unfold NotifyStencilUpload.
  destruct (MayIntersectFramebuffer h addr); [ | reflexivity ].
  cbn [negb]. rewrite Hfind.
  destruct (GetPointer h addr) as [src|]; [ | reflexivity ].
  destruct (scan_format_empty dstBuffer src w Hz) as (r & Hscan & Hr).
  rewrite (bind_run _ _ _ _ _ Hscan).
  destruct Hr as [-> | (v & ->)]; reflexivity.
Qed.

Lemma upload_empty_target_witness :
  find_vfb empty_host 0 = Some empty_vfb /\
  to_u32 (fb_stride empty_vfb * bufferHeight empty_vfb) = 0 /\
  NotifyStencilUpload 0 empty_host 0 0 true world0 = Some (false, world0).
Proof.
  split; [ reflexivity | ]. split; [ reflexivity | ].
  apply (upload_empty_target 0 empty_host 0 0 world0 empty_vfb);
    reflexivity.
Defined.

(** ** Every used bit is drawn *)

Lemma filter_nil {A} (f : A -> bool) l :
  (forall x, In x l -> f x = false) -> filter f l = [].
Proof.
  induction l as [|a l IH]; intros H; [ reflexivity | ].
  cbn [filter]. rewrite (H a) by now left. apply IH.
  intros x Hx. apply H. now right.
Qed.

Lemma set_bits_above n m u :
  0 <= u < 2 ^ Z.of_nat n -> (n <= m)%nat -> set_bits m u = set_bits n u.
Proof.
  intros Hu Hnm. unfold set_bits.
  replace m with (n + (m - n))%nat by lia.
  rewrite seq_app, filter_app, length_app.
  rewrite (filter_nil _ (seq (0 + n) (m - n))); [ simpl; lia | ].
  intros b Hb. apply in_seq in Hb.
  apply (small_bits_high _ (Z.of_nat n)); lia.
Qed.

(** X13.  The scan result of an upload that reaches the draw loop is
    below [values], so no used bit falls outside the loop's range: the
    number of draws is the number of bits set in the whole [usedBits]
    byte. *)
Theorem upload_draws_every_used_bit (fuel : nat) (h : Host)
    (addr size : Z) (skipZero : bool) (w : World)
    (dstBuffer : VirtualFramebuffer) (src : list byte)
    (usedBits values : Z) (w1 : World) :
  MayIntersectFramebuffer h addr = true ->
  find_vfb h addr = Some dstBuffer ->
  GetPointer h addr = Some src ->
  scan_format dstBuffer src w = Some (Some (usedBits, values), w1) ->
  usedBits <> 0 ->
  exists new w2,
    NotifyStencilUpload (9 + fuel) h addr size skipZero w = Some (true, w2) /\
    calls w2 = calls w ++ new /\
    0 < usedBits < values /\
    values <= 256 /\
    count_draws new = set_bits 8 usedBits.
Proof.
  intros Hmay Hfind Hptr Hscan Hne.
  destruct (upload_draw_loop fuel h addr size skipZero w dstBuffer src
              usedBits values w1 Hmay Hfind Hptr Hscan Hne)
    as (Hvalues & Hvisited & Hrange & Hcalls & _ & Hrun).
  eexists. eexists. split; [ exact Hrun | ].
  unfold add_calls, set_prog; cbn [calls]. rewrite Hcalls.
  split; [ reflexivity | ].
  split; [ lia | ].
  assert (Hbits : (stencil_bits (format dstBuffer) <= 8)%nat)
    by (unfold stencil_bits; destruct (format dstBuffer); lia).
  split.
  { rewrite Hvalues. change 256 with (2 ^ 8).
    apply Z.pow_le_mono_r; lia. }
  rewrite (count_draws_with _ None None), shader_path_draws, length_map.
  rewrite Hvisited, used_planes_count.
  symmetry. apply set_bits_above; [ now rewrite <- Hvalues | exact Hbits ].
Qed.

Lemma upload_draws_every_used_bit_witness :
  exists new w2,
    NotifyStencilUpload 9
      (sample_host GE_FORMAT_4444 (Some sample4444) None)
      0x04000000 8 false world0 = Some (true, w2) /\
    calls w2 = new /\
    count_draws new = set_bits 8 15.
Proof.
  destruct (upload_draws_every_used_bit 0
              (sample_host GE_FORMAT_4444 (Some sample4444) None)
              0x04000000 8 false world0 (sample_vfb GE_FORMAT_4444)
              sample4444 15 16 (add_loads world0 [0]%nat))
    as (new & w2 & Hrun & Hcalls & _ & _ & Hcount);
    [ reflexivity | reflexivity | reflexivity | reflexivity | lia | ].
  exists new, w2. split; [ exact Hrun | ].
  split; [ exact Hcalls | exact Hcount ].
Defined.

(** * Further properties of the scanners *)

Lemma words_inside (i : nat) numPixels :
  (i < Z.to_nat (numPixels / 2))%nat -> 4 * Z.of_nat i + 4 <= 2 * numPixels.
Proof.
  intros Hi.
  assert (0 < numPixels / 2) by lia.
  pose proof (Z.mul_div_le numPixels 2 eq_refl). lia.
Qed.

(** X14.  No scanner reads outside its region: for every [u32] pixel
    count, odd ones included, every 32-bit word read ends within the first
    [2 * numPixels] bytes for the two 16-bit formats and within the first
    [4 * numPixels] bytes for 8888. *)
Theorem scanners_read_inside_region (ptr8 : list byte) (numPixels : Z)
    (w : World) :
  0 <= numPixels < 2 ^ 32 ->
  (exists r reads,
     StencilBits5551 ptr8 numPixels w = Some (r, add_loads w reads) /\
     forall i, In i reads -> 4 * Z.of_nat i + 4 <= 2 * numPixels) /\
  (exists r reads,
     StencilBits4444 ptr8 numPixels w = Some (r, add_loads w reads) /\
     forall i, In i reads -> 4 * Z.of_nat i + 4 <= 2 * numPixels) /\
  (exists r reads,
     StencilBits8888 ptr8 numPixels w = Some (r, add_loads w reads) /\
     forall i, In i reads -> 4 * Z.of_nat i + 4 <= 4 * numPixels).
Proof.
  intros _. split; [ | split ].
  - rewrite StencilBits5551_run.
    destruct (find _ _) as [j|] eqn:F; eexists; eexists;
      (split; [ reflexivity | ]); intros i Hi; apply in_seq in Hi;
      apply words_inside.
    + apply find_seq_first in F as (Hj & _). lia.
    + lia.
  - rewrite StencilBits4444_run. eexists; eexists.
    split; [ reflexivity | ]. intros i Hi. apply in_seq in Hi.
    apply words_inside. lia.
  - rewrite StencilBits8888_run. eexists; eexists.
    split; [ reflexivity | ]. intros i Hi. apply in_seq in Hi. lia.
Qed.

Lemma scanners_read_inside_region_witness :
  0 <= 3 < 2 ^ 32 /\
  exists r reads,
    StencilBits5551 sample5551 3 world0 = Some (r, add_loads world0 reads) /\
    forall i, In i reads -> 4 * Z.of_nat i + 4 <= 2 * 3.
Proof.
  assert (H : 0 <= 3 < 2 ^ 32) by lia.
  split; [ exact H | ].
  destruct (scanners_read_inside_region sample5551 3 world0 H)
    as (H5551 & _ & _).
  exact H5551.
Defined.

Lemma odd_half numPixels :
  0 <= numPixels -> Z.odd numPixels = true ->
  (2 * Z.to_nat (numPixels / 2))%nat = (Z.to_nat numPixels - 1)%nat.
Proof.
  intros Hn Hodd. apply Z.odd_spec in Hodd as [m ->].
  replace (2 * m + 1) with (1 + m * 2) by lia.
  rewrite Z.div_add by lia. change (1 / 2) with 0. lia.
Qed.

Lemma StencilBits5551_value p numPixels w :
  exists r reads,
    StencilBits5551 p numPixels w = Some (r, add_loads w reads) /\
    (r = 0 \/ r = 1) /\
    (r = 1 <->
     exists k, (k < 2 * Z.to_nat (numPixels / 2))%nat /\
               stencil5551 p k = true).
Proof.
  rewrite StencilBits5551_run.
  destruct (find _ _) as [j|] eqn:F; eexists; eexists;
    (split; [ reflexivity | ]); (split; [ auto | ]).
  - apply find_seq_first in F as (Hj & Hhit & _).
    split; [ intros _ | reflexivity ].
    apply (pixel_pairs (fun k => stencil5551 p k = true)).
    exists j. split; [ lia | ].
    apply orb_true_iff. now rewrite <- hit5551_pixels.
  - pose proof (find_seq_none _ _ _ F) as Hnone.
    split; [ discriminate | ]. intros Hex. exfalso.
    apply (pixel_pairs (fun k => stencil5551 p k = true)) in Hex
      as (i & Hi & Hor).
    apply orb_true_iff in Hor. rewrite <- hit5551_pixels in Hor.
    rewrite Hnone in Hor by lia. discriminate.
Qed.

(** X15.  With an odd pixel count the two 16-bit scanners leave the last
    pixel out: the 4444 result is the union of the alpha nibbles of the
    first [numPixels - 1] pixels, and the 5551 result is 1 exactly when
    one of the first [numPixels - 1] pixels has its top bit set. *)
Theorem scanners_skip_last_pixel_of_odd_count (ptr8 : list byte)
    (numPixels : Z) (w : World) :
  0 <= numPixels ->
  Z.odd numPixels = true ->
  let n := Z.to_nat numPixels in
  StencilBits4444 ptr8 numPixels w =
    Some (or_all (alpha4444 ptr8) (n - 1),
          add_loads w (seq 0 (Z.to_nat (numPixels / 2)))) /\
  exists r reads,
    StencilBits5551 ptr8 numPixels w = Some (r, add_loads w reads) /\
    (r = 0 \/ r = 1) /\
    (r = 1 <->
     exists k, (k < n - 1)%nat /\ stencil5551 ptr8 k = true).
Proof.
  intros Hn Hodd n. unfold n. rewrite <- (odd_half numPixels Hn Hodd).
  split; [ apply StencilBits4444_run | apply StencilBits5551_value ].
Qed.

Lemma scanners_skip_last_pixel_of_odd_count_witness :
  0 <= 3 /\ Z.odd 3 = true /\
  stencil5551 sample5551 2 = true /\
  StencilBits5551 sample5551 3 world0 = Some (0, add_loads world0 [0]%nat).
Proof.
  split; [ lia | ]. split; [ reflexivity | ]. split; [ reflexivity | ].
  destruct (scanners_skip_last_pixel_of_odd_count sample5551 3 world0)
    as (_ & r & reads & Hrun & _ & _); [ lia | reflexivity | ].
  reflexivity.
Defined.

Lemma byte_at_skipn p k o : byte_at (skipn k p) o = byte_at p (k + o).
Proof.
  unfold byte_at. f_equal. revert p.
  induction k as [|k IH]; intros p; [ reflexivity | ].
  destruct p as [|b p]; [ now destruct o | ]. cbn [skipn Nat.add nth].
  apply IH.
Qed.

(** X16.  Scanning an 8888 region in two parts gives the same bits as
    scanning it whole: the result for [n + m] pixels is the OR of the
    result for the first [n] pixels and the result for the [m] pixels that
    start [4 * n] bytes further. *)
Theorem StencilBits8888_split (ptr8 : list byte) (n m : nat) (w : World) :
  exists a b,
    StencilBits8888 ptr8 (Z.of_nat n) w =
      Some (a, add_loads w (seq 0 n)) /\
    StencilBits8888 (skipn (4 * n) ptr8) (Z.of_nat m) w =
      Some (b, add_loads w (seq 0 m)) /\
    StencilBits8888 ptr8 (Z.of_nat (n + m)) w =
      Some (Z.lor a b, add_loads w (seq 0 (n + m))).
Proof.
  rewrite !StencilBits8888_run, !Nat2Z.id.
  eexists. eexists. split; [ reflexivity | ]. split; [ reflexivity | ].
  do 2 f_equal. apply Z.bits_inj'. intros j Hj. apply eq_iff_eq_true.
  rewrite Z.lor_spec, orb_true_iff, !or_all_bit. split.
  - intros (k & Hk & Hb). destruct (Nat.lt_ge_cases k n) as [Hlt | Hge].
    + left. eauto.
    + right. exists (k - n)%nat. split; [ lia | ].
      unfold alpha8888 in *. rewrite byte_at_skipn.
      now replace (4 * n + (4 * (k - n) + 3))%nat with (4 * k + 3)%nat by lia.
  - intros [(k & Hk & Hb) | (k & Hk & Hb)].
    + exists k. split; [ lia | exact Hb ].
    + exists (n + k)%nat. split; [ lia | ].
      unfold alpha8888 in *. rewrite byte_at_skipn in Hb.
      now replace (4 * (n + k) + 3)%nat with (4 * n + (4 * k + 3))%nat by lia.
Qed.

(** * The search for the target *)

(** X17.  The search over the tracked framebuffers has no early exit:
    it yields the last framebuffer in the list whose address matches, and
    none exactly when no address matches. *)
Theorem find_vfb_last_match (h : Host) (addr : Z) :
  (find_vfb h addr = None <->
   forall vfb, In vfb (vfbs_ h) ->
     MaskedEqual h (fb_address vfb) addr = false) /\
  forall dstBuffer,
    find_vfb h addr = Some dstBuffer <->
    exists before later,
      vfbs_ h = before ++ dstBuffer :: later /\
      MaskedEqual h (fb_address dstBuffer) addr = true /\
      forall vfb, In vfb later ->
        MaskedEqual h (fb_address vfb) addr = false.
Proof.
  unfold find_vfb. generalize (vfbs_ h) as l.
  induction l as [|x l IH] using rev_ind.
  - split.
    + split; [ intros _ v [] | reflexivity ].
    + intros dst. split; [ discriminate | ].
      intros (b & l & E & _). now destruct b.
  - destruct IH as [IHn IHs]. rewrite fold_left_app. cbn [fold_left].
    destruct (MaskedEqual h (fb_address x) addr) eqn:Ex.
    + split.
      * split; [ discriminate | ].
        intros Hall. rewrite Hall in Ex by (apply in_or_app; right; now left).
        discriminate.
      * intros dst. split.
        -- intros [= <-]. exists l, []. repeat split; auto. intros v [].
        -- intros (b & later & E & Hd & Hl).
           destruct later as [|y later] using rev_ind.
           ++ apply app_inj_tail in E as [_ ->]. reflexivity.
           ++ clear IHlater.
              rewrite app_comm_cons, app_assoc in E.
              apply app_inj_tail in E as [_ <-].
              rewrite Hl in Ex by (apply in_or_app; right; now left).
              discriminate.
    + split.
      * rewrite IHn. split.
        -- intros Hall v Hv. apply in_app_or in Hv as [Hv | [<- | []]]; auto.
        -- intros Hall v Hv. apply Hall, in_or_app. now left.
      * intros dst. rewrite IHs. split.
        -- intros (b & later & -> & Hd & Hl).
           exists b, (later ++ [x]). rewrite <- app_assoc. repeat split; auto.
           intros v Hv. apply in_app_or in Hv as [Hv | [<- | []]]; auto.
        -- intros (b & later & E & Hd & Hl).
           destruct later as [|y later] using rev_ind.
           ++ apply app_inj_tail in E as [_ ->]. congruence.
           ++ clear IHlater.
              rewrite app_comm_cons, app_assoc in E.
              apply app_inj_tail in E as [-> <-].
              exists b, later. repeat split; auto.
              intros v Hv. apply Hl, in_or_app. now left.
Qed.

(** * The texture and the quads *)

(** X18.  In an upload that reaches the shader, the source pixels are
    made into a texture exactly once, from the scanned pointer with the
    target's format, stride and buffer size, before any draw; every draw
    is the same quad, over the target's width and height with the buffer
    size as texture size, from (0, 0) to the UV extent that texture
    upload reported. *)
Theorem upload_texture_and_quads (fuel : nat) (h : Host)
    (addr size : Z) (skipZero : bool) (w : World)
    (dstBuffer : VirtualFramebuffer) (src : list byte)
    (usedBits values : Z) (w1 : World) :
  MayIntersectFramebuffer h addr = true ->
  find_vfb h addr = Some dstBuffer ->
  GetPointer h addr = Some src ->
  scan_format dstBuffer src w = Some (Some (usedBits, values), w1) ->
  usedBits <> 0 ->
  let texture :=
    MakePixelTexture src (format dstBuffer) (fb_stride dstBuffer)
      (bufferWidth dstBuffer) (bufferHeight dstBuffer) in
  let quad :=
    DrawActiveTexture 0 0 (width dstBuffer) (height dstBuffer)
      (bufferWidth dstBuffer) (bufferHeight dstBuffer)
      (FLit 0) (FLit 0)
      (fst (MakePixelTexture_uv h)) (snd (MakePixelTexture_uv h))
      ROTATION_LOCKED_HORIZONTAL false in
  exists new w2,
    NotifyStencilUpload (9 + fuel) h addr size skipZero w = Some (true, w2) /\
    calls w2 = calls w ++ new /\
    filter is_make_texture new = [ texture ] /\
    In texture (before_first_draw new) /\
    filter is_draw new = repeat quad (count_draws new).
Proof.
  intros Hmay Hfind Hptr Hscan Hne texture quad.
  destruct (upload_draw_loop fuel h addr size skipZero w dstBuffer src
              usedBits values w1 Hmay Hfind Hptr Hscan Hne)
    as (_ & _ & _ & Hcalls & _ & Hrun).
  eexists. eexists. split; [ exact Hrun | ].
  unfold add_calls, set_prog; cbn [calls]. rewrite Hcalls.
  split; [ reflexivity | ].
  set (p := stencilUploadProgram_ w).
  set (planes := filter (plane_used usedBits)
                   (loop_values (9 + fuel) values 1)).
  split; [ | split ].
  - rewrite shader_path_split, (filter_app is_make_texture).
    rewrite before_loop_filter by (intros; by_pieces).
    unfold setup_calls, finish_calls. cbv zeta.
    destruct (use_blit h dstBuffer); [ reflexivity | ].
    destruct (fbo dstBuffer); reflexivity.
  - unfold shader_path_calls.
    rewrite before_first_draw_app by by_pieces.
    rewrite before_first_draw_app by by_pieces.
    apply in_or_app. right. apply in_or_app. left.
    unfold setup_calls. cbv zeta. rewrite !in_app_iff. cbn [In]. intuition.
  - rewrite (count_draws_with _ None None), shader_path_draws, length_map.
    unfold shader_path_calls, loop_calls.
    rewrite !filter_app, filter_draw_loop.
    replace (filter is_draw (ensure_calls h p))
      with (@nil Call) by (symmetry; by_pieces).
    replace (filter is_draw (setup_calls h dstBuffer src (ensured_program h p)))
      with (@nil Call) by (symmetry; by_pieces).
    replace (filter is_draw (finish_calls h dstBuffer))
      with (@nil Call) by (symmetry; by_pieces).
    cbn [app]. now rewrite app_nil_r.
Qed.

Lemma upload_texture_and_quads_witness :
  exists new w2,
    NotifyStencilUpload 9 failing_host 0x04000000 8 false world0
      = Some (true, w2) /\
    calls w2 = new /\
    filter is_make_texture new =
      [ MakePixelTexture sample8888 GE_FORMAT_8888 2 2 1 ].
Proof.
  destruct (upload_texture_and_quads 0 failing_host 0x04000000 8 false world0
              (sample_vfb GE_FORMAT_8888) sample8888 0x20 256
              (add_loads world0 [0; 1]%nat))
    as (new & w2 & Hrun & Hcalls & Htex & _);
    [ reflexivity | reflexivity | reflexivity | reflexivity | lia | ].
  exists new, w2. split; [ exact Hrun | ].
  split; [ exact Hcalls | exact Htex ].
Defined.
